(** * tg-yt-gemini-bot: a shallow embedding of [bot.py]

    The bot listens for Telegram messages, picks the first token that looks
    like a YouTube link, asks Gemini for a summary and relays it, cut into
    pieces of at most 4000 characters.

    Python values are modelled as follows.
    - A [str] is a list of Unicode code points ([N]); an [int] is a [Z].
      [len], slicing, [range], [str.strip], [str.split], [in] and
      [str.format] are written out on these.
    - Values decoded from JSON are the inductive [pyval].
    - An exception is represented by its class; the table of base classes
      gives [issubclass], which decides the [except] clauses.
    - Effects ([requests.post], [reply_text], [ack.delete]) are recorded in a
      trace; what the outside world answers is read from a [world] record.
    Calls to [logger] are left out: they neither raise nor change what is
    sent. *)

From Stdlib Require Import List NArith ZArith Bool Arith Lia Ascii String.
Import ListNotations.

Set Warnings "-register-all".

(* ================================================================= *)
(** ** Python strings and integers *)

Module PyStr.

(** A Unicode code point. *)
Definition char := N.

(** A Python [str]. *)
Definition str := list char.

(** A literal of ASCII characters. *)
Fixpoint lit (s : string) : str :=
  match s with
  | EmptyString => []
  | String a r => N_of_ascii a :: lit r
  end.

Definition char_eqb (a b : char) : bool := N.eqb a b.

Fixpoint str_eqb (a b : str) : bool :=
  match a, b with
  | [], [] => true
  | x :: a', y :: b' => char_eqb x y && str_eqb a' b'
  | _, _ => false
  end.

(** [len(s)] *)
Definition len {A : Type} (s : list A) : Z := Z.of_nat (List.length s).

(** [str.isspace] on one character, the table of CPython's
    [_PyUnicode_IsWhitespace]; [str.split()] and [str.strip()] use it. *)
Definition isspace (c : char) : bool :=
  (((9 <=? c) && (c <=? 13)) || ((28 <=? c) && (c <=? 32))
   || (c =? 133) || (c =? 160) || (c =? 5760)
   || ((8192 <=? c) && (c <=? 8202))
   || (c =? 8232) || (c =? 8233) || (c =? 8239) || (c =? 8287)
   || (c =? 12288))%N.

Fixpoint lstrip (s : str) : str :=
  match s with
  | [] => []
  | c :: r => if isspace c then lstrip r else s
  end.

Definition rstrip (s : str) : str := rev (lstrip (rev s)).

(** [s.strip()] *)
Definition strip (s : str) : str := rstrip (lstrip s).

(** [s.split()]: the maximal runs of characters that are not whitespace,
    from left to right. [cur] is the token being scanned. *)
Fixpoint split_from (cur : str) (s : str) : list str :=
  match s with
  | [] => match cur with [] => [] | _ => [cur] end
  | c :: r =>
      if isspace c
      then match cur with
           | [] => split_from [] r
           | _ => cur :: split_from [] r
           end
      else split_from (cur ++ [c]) r
  end.

Definition split (s : str) : list str := split_from [] s.

Fixpoint startswith (p s : str) : bool :=
  match p, s with
  | [], _ => true
  | a :: p', b :: s' => char_eqb a b && startswith p' s'
  | _ :: _, [] => false
  end.

(** [sub in s] *)
Fixpoint contains (sub s : str) : bool :=
  startswith sub s
  || match s with
     | [] => false
     | _ :: r => contains sub r
     end.

(** [s[i:j]] for [0 <= i <= j]; Python clamps both ends to [len(s)]. *)
Definition slice {A : Type} (s : list A) (i j : Z) : list A :=
  firstn (Z.to_nat (j - i)) (skipn (Z.to_nat i) s).

(** [range(start, stop, step)] for a positive [step]. Such a range holds at
    most [stop - start] numbers, which bounds the recursion. *)
Fixpoint range_from (fuel : nat) (i stop step : Z) : list Z :=
  match fuel with
  | O => []
  | S f => if (i <? stop)%Z then i :: range_from f (i + step)%Z stop step
           else []
  end.

Definition range (start stop step : Z) : list Z :=
  range_from (Z.to_nat (stop - start)) start stop step.

End PyStr.
Import PyStr.

Arguments lit s%_string.

(* ================================================================= *)
(** ** Exceptions *)

Module Exn.

(** The exception classes that the program can meet: Python's own, that
    of the [json] module ([json_JSONDecodeError] is [json.JSONDecodeError]),
    those of [requests.exceptions] and [telegram.error.TelegramError]. *)
Inductive class : Type :=
  | Exception
  | ValueError
  | TypeError
  | LookupError
  | KeyError
  | IndexError
  | RuntimeError
  | RecursionError
  | json_JSONDecodeError
  | OSError
  | RequestException
  | HTTPError
  | ConnectionError
  | Timeout
  | InvalidJSONError
  | JSONDecodeError
  | TelegramError.

Definition class_eqb (a b : class) : bool :=
  match a, b with
  | Exception, Exception | ValueError, ValueError | TypeError, TypeError
  | LookupError, LookupError | KeyError, KeyError | IndexError, IndexError
  | RuntimeError, RuntimeError | RecursionError, RecursionError
  | json_JSONDecodeError, json_JSONDecodeError
  | OSError, OSError | RequestException, RequestException
  | HTTPError, HTTPError | ConnectionError, ConnectionError
  | Timeout, Timeout | InvalidJSONError, InvalidJSONError
  | JSONDecodeError, JSONDecodeError | TelegramError, TelegramError => true
  | _, _ => false
  end.

(** The direct base classes. [requests.exceptions.JSONDecodeError]
    (requests 2.27 and later) derives from [InvalidJSONError] and from
    [json.JSONDecodeError], a [ValueError]. *)
Definition bases (c : class) : list class :=
  match c with
  | Exception => []
  | ValueError | TypeError | LookupError | RuntimeError | OSError
  | TelegramError =>
      [Exception]
  | KeyError | IndexError => [LookupError]
  | RecursionError => [RuntimeError]
  | json_JSONDecodeError => [ValueError]
  | RequestException => [OSError]
  | HTTPError | ConnectionError | Timeout | InvalidJSONError =>
      [RequestException]
  | JSONDecodeError => [InvalidJSONError; json_JSONDecodeError]
  end.

Fixpoint issubclass_upto (depth : nat) (c d : class) : bool :=
  class_eqb c d
  || match depth with
     | O => false
     | S n => existsb (fun b => issubclass_upto n b d) (bases c)
     end.

(** [issubclass(c, d)]; no chain of base classes is longer than 5. *)
Definition issubclass (c d : class) : bool := issubclass_upto 5 c d.

End Exn.

(** A raised exception, represented by its class. *)
Definition exn := Exn.class.

(* ================================================================= *)
(** ** Values decoded from JSON *)

Inductive pyval : Type :=
  | PNone
  | PBool (b : bool)
  | PInt (z : Z)
  | PFloat (digits : str)       (* a float, kept as its JSON numeral *)
  | PStr (s : str)
  | PList (l : list pyval)
  | PDict (kv : list (str * pyval)).

Fixpoint assoc {A : Type} (k : str) (kv : list (str * A)) : option A :=
  match kv with
  | [] => None
  | (k', v) :: r => if str_eqb k k' then Some v else assoc k r
  end.

Inductive subscript : Type :=
  | Key (k : str)
  | Idx (i : Z).

(** [l[i]] on a sequence, with Python's negative indices. *)
Definition seq_item {A : Type} (l : list A) (i : Z) : option A :=
  let j := if (i <? 0)%Z then (i + len l)%Z else i in
  if (j <? 0)%Z then None else nth_error l (Z.to_nat j).

(** [v[k]]. The keys of a decoded JSON object are strings, so an integer
    subscript finds nothing in a dict. *)
Definition getitem (v : pyval) (k : subscript) : exn + pyval :=
  match v, k with
  | PDict kv, Key k =>
      match assoc k kv with
      | Some x => inr x
      | None => inl Exn.KeyError
      end
  | PDict _, Idx _ => inl Exn.KeyError
  | PList l, Idx i =>
      match seq_item l i with
      | Some x => inr x
      | None => inl Exn.IndexError
      end
  | PList _, Key _ => inl Exn.TypeError
  | PStr s, Idx i =>
      match seq_item s i with
      | Some c => inr (PStr [c])
      | None => inl Exn.IndexError
      end
  | PStr _, Key _ => inl Exn.TypeError
  | PNone, _ | PBool _, _ | PInt _, _ | PFloat _, _ => inl Exn.TypeError
  end.

(** [len(v)] *)
Definition py_len (v : pyval) : exn + Z :=
  match v with
  | PStr s => inr (len s)
  | PList l => inr (len l)
  | PDict kv => inr (len kv)
  | PNone | PBool _ | PInt _ | PFloat _ => inl Exn.TypeError
  end.

(** [v[i:j]] for [0 <= i <= j]. A dict takes the slice for a key: up to
    Python 3.11 a slice is not hashable and the lookup raises a
    [TypeError]; from Python 3.12 on it is, and the lookup raises a
    [KeyError], the keys of a decoded JSON object being strings.
    [slice_is_hashable] tells which interpreter runs the program. *)
Definition py_slice (slice_is_hashable : bool) (v : pyval) (i j : Z)
  : exn + pyval :=
  match v with
  | PStr s => inr (PStr (slice s i j))
  | PList l => inr (PList (slice l i j))
  | PDict _ => inl (if slice_is_hashable then Exn.KeyError else Exn.TypeError)
  | PNone | PBool _ | PInt _ | PFloat _ => inl Exn.TypeError
  end.

(* ================================================================= *)
(** ** [str.format] *)

Module Format.

Definition lbrace : char := 123%N.
Definition rbrace : char := 125%N.

Inductive mode : Type :=
  | InText
  | InField (name : str).

(** [template.format] with keyword arguments [kw], all strings. Doubled braces stand for
    one brace, a lone brace is a [ValueError], and the text between [{] and
    the next [}] is looked up in [kw] as a keyword name; the value found
    is copied into the result and not scanned again. This is Python's
    behaviour for the templates whose fields are plain names (no
    conversion, format specification, attribute or index), as the field
    of [GEMINI_PROMPT_TEMPLATE] is. *)
Fixpoint format_from (kw : list (str * str)) (m : mode) (s : str)
  : exn + str :=
  match m, s with
  | InText, [] => inr []
  | InText, c :: r =>
      if char_eqb c lbrace then
        match r with
        | [] => inl Exn.ValueError
        | c2 :: r2 =>
            if char_eqb c2 lbrace
            then match format_from kw InText r2 with
                 | inr out => inr (lbrace :: out)
                 | inl e => inl e
                 end
            else format_from kw (InField []) r
        end
      else if char_eqb c rbrace then
        match r with
        | [] => inl Exn.ValueError
        | c2 :: r2 =>
            if char_eqb c2 rbrace
            then match format_from kw InText r2 with
                 | inr out => inr (rbrace :: out)
                 | inl e => inl e
                 end
            else inl Exn.ValueError
        end
      else
        match format_from kw InText r with
        | inr out => inr (c :: out)
        | inl e => inl e
        end
  | InField _, [] => inl Exn.ValueError
  | InField name, c :: r =>
      if char_eqb c rbrace then
        match assoc name kw with
        | None => inl Exn.KeyError
        | Some v =>
            match format_from kw InText r with
            | inr out => inr (v ++ out)
            | inl e => inl e
            end
        end
      else format_from kw (InField (name ++ [c])) r
  end.

Definition format (template : str) (kw : list (str * str)) : exn + str :=
  format_from kw InText template.

End Format.

(* ================================================================= *)
(** ** The outside world and the effects of the program *)

(** What [requests.post] can raise before any response arrives. *)
Inductive transport_failure : Type :=
  | ConnectionFailed      (* requests.exceptions.ConnectionError *)
  | TimedOut.             (* requests.exceptions.Timeout, after 60 s *)

Definition transport_exn (f : transport_failure) : exn :=
  match f with
  | ConnectionFailed => Exn.ConnectionError
  | TimedOut => Exn.Timeout
  end.

(** The ways in which [response.json()] fails.
    - The body is not JSON text. requests 2.27 and later turn the error
      of the decoder into [requests.exceptions.JSONDecodeError]; earlier
      versions let [json.JSONDecodeError] through.
    - [IntegerTooLong]: the body holds an integer of more digits than
      [int] converts (4300 by default); the decoder raises a plain
      [ValueError], which requests does not wrap.
    - [NestedTooDeep]: the body nests arrays or objects deeper than the
      recursion limit; the decoder raises a [RecursionError], which
      requests does not wrap. *)
Inductive decode_failure : Type :=
  | NotJSON_wrapped
  | NotJSON_plain
  | IntegerTooLong
  | NestedTooDeep.

(** The exception that [response.json()] raises on a failure. *)
Definition decode_exn (f : decode_failure) : exn :=
  match f with
  | NotJSON_wrapped => Exn.JSONDecodeError
  | NotJSON_plain => Exn.json_JSONDecodeError
  | IntegerTooLong => Exn.ValueError
  | NestedTooDeep => Exn.RecursionError
  end.

(** An HTTP response: its status, what [response.json()] returns,
    [None] when it raises, and in that case the way it fails. A response
    with status 1xx, 204 or 304 reaches the program without a body, so
    that for it [json_body] is [None]. *)
Record Response : Type := {
  status_code : Z;
  json_body : option pyval;
  json_failure : decode_failure
}.

(** The answers of the outside world.
    - [post_result url payload]: the outcome of the POST;
    - [reply_fails n text]: whether the [n]-th call of [reply_text] (counted
      from 0) raises a [TelegramError];
    - [slice_is_hashable]: whether the interpreter is Python 3.12 or
      later, where slice objects are hashable;
    - [delete_fails]: whether [ack.delete()] raises a [TelegramError]. *)
Record world : Type := {
  post_result : str -> pyval -> transport_failure + Response;
  reply_fails : nat -> pyval -> bool;
  slice_is_hashable : bool;
  delete_fails : bool
}.

(** The calls made to the outside world, in the order they are made. A
    sent message is named by its rank among the replies. *)
Inductive event : Type :=
  | Post (url : str) (payload : pyval)
  | Reply (text : pyval)
  | Delete (handle : nat).

Definition is_reply (e : event) : bool :=
  match e with
  | Reply _ => true
  | _ => false
  end.

Inductive result (A : Type) : Type :=
  | Returned (a : A)
  | Raised (e : exn).
Arguments Returned {A} a.
Arguments Raised {A} e.

(** A computation extends the trace and returns or raises. *)
Definition M (A : Type) : Type := list event -> result A * list event.

Definition ret {A : Type} (a : A) : M A := fun tr => (Returned a, tr).

Definition raise {A : Type} (e : exn) : M A := fun tr => (Raised e, tr).

Definition bind {A B : Type} (c : M A) (k : A -> M B) : M B :=
  fun tr =>
    match c tr with
    | (Returned a, tr') => k a tr'
    | (Raised e, tr') => (Raised e, tr')
    end.

Notation "x <- c ;; k" := (bind c (fun x => k))
  (at level 61, c at next level, right associativity).
Notation "c ;; k" := (bind c (fun _ => k))
  (at level 61, right associativity).

Definition lift {A : Type} (r : exn + A) : M A :=
  match r with
  | inr a => ret a
  | inl e => raise e
  end.

(** [try: body except cls: handler] *)
Definition try_except {A : Type} (body : M A) (cls : Exn.class)
    (handler : M A) : M A :=
  fun tr =>
    match body tr with
    | (Returned a, tr') => (Returned a, tr')
    | (Raised e, tr') =>
        if Exn.issubclass e cls then handler tr' else (Raised e, tr')
    end.

(** [try: body finally: cleanup]: the cleanup runs however the body ends;
    an exception of the cleanup replaces the outcome of the body. *)
Definition try_finally {A : Type} (body : M A) (cleanup : M unit) : M A :=
  fun tr =>
    match body tr with
    | (r, tr') =>
        match cleanup tr' with
        | (Returned _, tr'') => (r, tr'')
        | (Raised e, tr'') => (Raised e, tr'')
        end
    end.

(** [for x in l: body(x)] *)
Fixpoint for_each {A : Type} (l : list A) (body : A -> M unit) : M unit :=
  match l with
  | [] => ret tt
  | x :: r => body x ;; for_each r body
  end.

(** Runs a computation from the empty trace. *)
Definition run {A : Type} (c : M A) : result A * list event := c [].

(* ================================================================= *)
(** ** The program *)

Definition dq : str := [34%N].

Definition quoted (s : string) : str := dq ++ lit s ++ dq.
Arguments quoted s%_string.

Definition GEMINI_PROMPT_TEMPLATE : str :=
  lit "Identify and explain the core theses and insights from this video.

Audience: Write for a crypto-native audience. Use our jargon (e.g., "
  ++ quoted "Fed,"
  ++ lit " "
  ++ quoted "JPOW,"
  ++ lit " "
  ++ quoted "bps,"
  ++ lit " "
  ++ quoted "QT,"
  ++ lit " "
  ++ quoted "TradFi,"
  ++ lit " "
  ++ quoted "liquidity,"
  ++ lit " "
  ++ quoted "FUD,"
  ++ lit " "
  ++ quoted "counterparty risk,"
  ++ lit " etc.).

Format: Use a simple list of standalone bullet points. Don't use two-part bullets.

Specificity/Hedging: Be extremely specific. Do not use hedging language (e.g., avoid words like "
  ++ quoted "likely,"
  ++ lit " "
  ++ quoted "seems,"
  ++ lit " "
  ++ quoted "may,"
  ++ lit " or "
  ++ quoted "suggests"
  ++ lit "). State facts and conclusions directly. Include specific numbers or figures mentioned in the video (e.g., 25 bps, 76 million, six basis points) where possible.

Style: Speak directly to me in the second person. Do not use timestamps. Do not say "
  ++ quoted "the video says"
  ++ lit " or "
  ++ quoted "the speaker argues."
  ++ lit " Just state the key points as facts, as if you are explaining the situation to me yourself.

Summarize this YouTube video: {youtube_url}
".

Definition GEMINI_ENDPOINT : str :=
  lit "https://generativelanguage.googleapis.com/v1beta/models/gemini-pro:generateContent".

Definition FALLBACK_TEXT : str :=
  lit "Sorry, something went wrong processing the summary.".

(** The literal of the source holds the three characters U+00E2, U+20AC
    and U+201D between "link " and " fetching". *)
Definition ACK_TEXT : str :=
  lit "Got the link " ++ [226; 8364; 8221]%N
  ++ lit " fetching summary from Gemini...".

Definition ERROR_TEXT : str := lit "Error: failed to contact Gemini API.".

Definition max_len : Z := 4000.

(** The test of line 48. *)
Definition names_host (token : str) : bool :=
  contains (lit "youtube.com") token || contains (lit "youtu.be") token.

(** The loop returns at the first token that passes the test. *)
Definition extract_youtube_url (text : str) : option str :=
  let text := strip text in
  find names_host (split text).

(** [update.message], with the two fields the handler reads. *)
Record Message : Type := {
  text : option str;
  chat_id : Z
}.

Record Update : Type := {
  message : option Message
}.

(** [{"contents": [{"parts": [{"text": prompt}]}]}] *)
Definition payload_of (prompt : str) : pyval :=
  PDict [(lit "contents",
          PList [PDict [(lit "parts",
                         PList [PDict [(lit "text", PStr prompt)]])]])].

(** [f"{GEMINI_ENDPOINT}?key={GEMINI_API_KEY}"] *)
Definition request_url (GEMINI_API_KEY : str) : str :=
  GEMINI_ENDPOINT ++ lit "?key=" ++ GEMINI_API_KEY.

(** [v[k1][k2]...]: the subscripts are applied from left to right and the
    first one that raises ends the evaluation. *)
Definition subscripts (v : pyval) (ks : list subscript) : exn + pyval :=
  fold_left
    (fun acc k =>
       match acc with
       | inr x => getitem x k
       | inl e => inl e
       end)
    ks (inr v).

(** [data['candidates'][0]['content']['parts'][0]['text']] *)
Definition response_text (data : pyval) : exn + pyval :=
  subscripts data
    [Key (lit "candidates"); Idx 0; Key (lit "content"); Key (lit "parts");
     Idx 0; Key (lit "text")].

Section Bot.

Variable GEMINI_API_KEY : str.
Variable W : world.

(** [requests.post(url, headers=headers, json=payload, timeout=60)] *)
Definition requests_post (url : str) (payload : pyval) : M Response :=
  fun tr =>
    match post_result W url payload with
    | inl f => (Raised (transport_exn f), tr ++ [Post url payload])
    | inr resp => (Returned resp, tr ++ [Post url payload])
    end.

(** [response.raise_for_status()]: an [HTTPError] for the client and
    server error statuses, 400 to 599. *)
Definition raise_for_status (resp : Response) : M unit :=
  if ((400 <=? status_code resp) && (status_code resp <? 600))%Z
  then raise Exn.HTTPError
  else ret tt.

(** [response.json()] *)
Definition response_json (resp : Response) : M pyval :=
  match json_body resp with
  | Some data => ret data
  | None => raise (decode_exn (json_failure resp))
  end.

(** [update.message.reply_text(text)]; returns the handle of the message. *)
Definition reply_text (text : pyval) : M nat :=
  fun tr =>
    let n := List.length (filter is_reply tr) in
    if reply_fails W n text
    then (Raised Exn.TelegramError, tr ++ [Reply text])
    else (Returned n, tr ++ [Reply text]).

(** [ack.delete()] *)
Definition delete (ack : nat) : M unit :=
  fun tr =>
    if delete_fails W
    then (Raised Exn.TelegramError, tr ++ [Delete ack])
    else (Returned tt, tr ++ [Delete ack]).

Definition call_gemini (youtube_url : str) : M pyval :=
  prompt <- lift (Format.format GEMINI_PROMPT_TEMPLATE
                    [(lit "youtube_url", youtube_url)]) ;;
  let payload := payload_of prompt in
  response <- requests_post (request_url GEMINI_API_KEY) payload ;;
  raise_for_status response ;;
  data <- response_json response ;;
  try_except
    (lift (response_text data))
    Exn.Exception
    (ret (PStr FALLBACK_TEXT)).

(** Lines 61 to 70: the body of the outer [try] with its [except] clause. *)
Definition summarize_and_reply (youtube_url : str) : M unit :=
  try_except
    (summary <- call_gemini youtube_url ;;
     n <- lift (py_len summary) ;;
     if (n <=? max_len)%Z
     then reply_text summary ;; ret tt
     else for_each (range 0 n max_len)
            (fun i =>
               piece <- lift (py_slice (slice_is_hashable W) summary
                                i (i + max_len)) ;;
               reply_text piece ;; ret tt))
    Exn.RequestException
    (reply_text (PStr ERROR_TEXT) ;; ret tt).

Definition handle_message (update : Update) : M unit :=
  match message update with
  | None => ret tt
  | Some msg =>
      match text msg with
      | None | Some [] => ret tt
      | Some txt =>
          match extract_youtube_url txt with
          | None | Some [] => ret tt
          | Some youtube_url =>
              ack <- reply_text (PStr ACK_TEXT) ;;
              try_finally
                (summarize_and_reply youtube_url)
                (try_except (delete ack) Exn.Exception (ret tt))
          end
      end
  end.

End Bot.

(* ================================================================= *)
(** ** Start of the process *)

(** What the module does when it is loaded, up to the start of the event
    loop, which belongs to the Telegram library. *)
Inductive boot_event : Type :=
  | BuildApplication (token : option str)
  | AddHandler
  | Print (s : str)
  | RunPolling.

Inductive boot_result : Type :=
  | SystemExit (msg : str)
  | Loaded.

Definition EXIT_TEXT : str :=
  lit "Set TELEGRAM_BOT_TOKEN and GEMINI_API_KEY environment variables".

(** [main()] *)
Definition main (TELEGRAM_BOT_TOKEN : option str) : list boot_event :=
  [BuildApplication TELEGRAM_BOT_TOKEN; AddHandler;
   Print (lit "Bot starting..."); RunPolling].

(** Truth value of what [os.getenv] returns: [None] and the empty string
    are false. *)
Definition truthy (v : option str) : bool :=
  match v with
  | None | Some [] => false
  | Some _ => true
  end.

(** The module body. [getenv] is [os.getenv]; [is_main] says whether
    [__name__ == "__main__"]. *)
Definition module_body (getenv : str -> option str) (is_main : bool)
  : list boot_event * boot_result :=
  let TELEGRAM_BOT_TOKEN := getenv (lit "TELEGRAM_BOT_TOKEN") in
  let GEMINI_API_KEY := getenv (lit "GEMINI_API_KEY") in
  if negb (truthy TELEGRAM_BOT_TOKEN) || negb (truthy GEMINI_API_KEY)
  then ([], SystemExit EXIT_TEXT)
  else if is_main then (main TELEGRAM_BOT_TOKEN, Loaded)
  else ([], Loaded).

(* ================================================================= *)
(** ** Sample inputs *)

Definition sample_update : Update :=
  {| message :=
       Some {| text := Some (lit "check this out https://youtu.be/abc123 thanks");
               chat_id := 42 |} |}.

Definition sample_link : str := lit "https://youtu.be/abc123".

Definition sample_key : str := lit "KEY".

(** [{"candidates": [{"content": {"parts": [{"text": t}]}}]}] *)
Definition body_with_text (t : pyval) : pyval :=
  PDict [(lit "candidates",
          PList [PDict [(lit "content",
                         PDict [(lit "parts",
                                 PList [PDict [(lit "text", t)]])])]])].

(** A response with a status and a body; when there is nothing decoded,
    the body is not JSON text and requests wraps the error. *)
Definition response_with (status : Z) (body : option pyval) : Response :=
  {| status_code := status; json_body := body;
     json_failure := NotJSON_wrapped |}.

(** A world that gives one answer to every POST and accepts every reply. *)
Definition world_answering (answer : transport_failure + Response)
    (deletion_fails : bool) : world :=
  {| post_result := fun _ _ => answer;
     reply_fails := fun _ _ => false;
     slice_is_hashable := true;
     delete_fails := deletion_fails |}.

Definition long_summary : str := repeat 97%N (Z.to_nat 8500).

(** An environment with an empty bot token. *)
Definition env_empty_token (name : str) : option str :=
  if str_eqb name (lit "TELEGRAM_BOT_TOKEN") then Some []
  else if str_eqb name (lit "GEMINI_API_KEY") then Some (lit "KEY")
  else None.

(* ================================================================= *)
(** ** Vocabulary of the specification *)

(** Whitespace only. *)
Definition blank (s : str) : Prop := Forall (fun c => isspace c = true) s.

(** A token: not empty and free of whitespace. *)
Definition word (t : str) : Prop :=
  t <> [] /\ Forall (fun c => isspace c = false) t.

(** What may follow a token: the end of the text or a whitespace. *)
Definition ends_word (rest : str) : Prop :=
  match rest with
  | [] => True
  | c :: _ => isspace c = true
  end.

(** [tokenization s toks]: [toks] are the whitespace-delimited tokens of
    [s], from left to right. *)
Inductive tokenization : str -> list str -> Prop :=
  | tokens_none (w : str) :
      blank w -> tokenization w []
  | tokens_cons (w t rest : str) (toks : list str) :
      blank w -> word t -> ends_word rest -> tokenization rest toks ->
      tokenization (w ++ t ++ rest) (t :: toks).

(** The JSON document has the nested path
    [candidates[0].content.parts[0].text], which leads to [t]: an object
    whose member "candidates" is an array, whose first element is an object
    whose member "content" is an object whose member "parts" is an array,
    whose first element is an object with a member "text". *)
Definition leads_to_text (data t : pyval) : Prop :=
  exists top candidates cand content parts part,
    data = PDict top
    /\ assoc (lit "candidates") top = Some (PList (PDict cand :: candidates))
    /\ assoc (lit "content") cand = Some (PDict content)
    /\ assoc (lit "parts") content = Some (PList (PDict part :: parts))
    /\ assoc (lit "text") part = Some t.

Definition has_expected_shape (data : pyval) : Prop :=
  exists t, leads_to_text data t.

(** The [k]-th slice of [size] characters, counted from 0. *)
Definition nth_slice (size : Z) (s : str) (k : nat) : str :=
  slice s (Z.of_nat k * size) (Z.of_nat k * size + size).

(** The strings that lines 63 to 67 pass to [reply_text] for a summary that
    is the string [s]. *)
Definition pieces (s : str) : list str :=
  if (len s <=? max_len)%Z then [s]
  else map (fun i => slice s i (i + max_len)) (range 0 (len s) max_len).

(** The outcome of [call_gemini] for each answer to the POST. *)
Definition client_outcome (answer : transport_failure + Response)
  : result pyval :=
  match answer with
  | inl f => Raised (transport_exn f)
  | inr resp =>
      if ((400 <=? status_code resp) && (status_code resp <? 600))%Z
      then Raised Exn.HTTPError
      else match json_body resp with
           | None => Raised (decode_exn (json_failure resp))
           | Some data =>
               match response_text data with
               | inr v => Returned v
               | inl _ => Returned (PStr FALLBACK_TEXT)
               end
           end
  end.

(** The prompt built for a link. *)
Definition prompt_for (youtube_url : str) : str :=
  firstn 852 GEMINI_PROMPT_TEMPLATE ++ youtube_url ++ [10%N].

(** [sub] occurs in [s]. *)
Definition occurs_in (sub s : str) : Prop :=
  exists a b, s = a ++ sub ++ b.

(** The token names one of the two recognized hosts. *)
Definition mentions_host (t : str) : Prop :=
  occurs_in (lit "youtube.com") t \/ occurs_in (lit "youtu.be") t.

(* ================================================================= *)
(** ** Further vocabulary and sample inputs *)

(** An outcome that is not a raised [RequestException]. *)
Definition no_request_exception (r : result unit) : Prop :=
  match r with
  | Returned _ => True
  | Raised e => Exn.issubclass e Exn.RequestException = false
  end.

(** Statuses whose responses reach the program without a body. *)
Definition bodiless (status : Z) : bool :=
  ((status <? 200) || (status =? 204) || (status =? 304))%Z.

(** The responses that the HTTP stack can hand over. *)
Definition deliverable (resp : Response) : Prop :=
  bodiless (status_code resp) = true -> json_body resp = None.

(** A response whose decoding fails in a given way. *)
Definition response_failing (status : Z) (failure : decode_failure)
  : Response :=
  {| status_code := status; json_body := None; json_failure := failure |}.

(** The number of calls of [reply_text] in a trace. *)
Definition replies_so_far (tr : list event) : nat :=
  List.length (filter is_reply tr).

Definition sample_text : str :=
  lit "check this out https://youtu.be/abc123 thanks".

Definition sample_message : Message :=
  {| text := Some sample_text; chat_id := 42 |}.

(** A world that gives one answer to every POST and refuses the call of
    [reply_text] of rank [refused]. *)
Definition world_refusing (answer : transport_failure + Response)
    (refused : nat) : world :=
  {| post_result := fun _ _ => answer;
     reply_fails := fun n _ => Nat.eqb n refused;
     slice_is_hashable := true;
     delete_fails := false |}.

(** An environment with both variables set. *)
Definition env_both (name : str) : option str :=
  if str_eqb name (lit "TELEGRAM_BOT_TOKEN") then Some (lit "TOKEN")
  else if str_eqb name (lit "GEMINI_API_KEY") then Some (lit "KEY")
  else None.

(* ================================================================= *)
(** ** Proof automation *)

(** One step of the case analysis of a chain of subscripts: on the member
    found in a dict, or on the first element of a list. *)
Ltac case_subscript :=
  match goal with
  | H : context [match assoc ?k ?kv with _ => _ end] |- _ =>
      let E := fresh "E" in destruct (assoc k kv) as [[]|] eqn:E
  | H : context [match hd_error ?l with _ => _ end] |- _ =>
      destruct l as [|[] ?]
  end; simpl in *; try discriminate.

(* ================================================================= *)
(** ** Strings: facts about [in], [strip] and [split] *)

Lemma char_eqb_eq (a b : char) : char_eqb a b = true <-> a = b.
Proof. unfold char_eqb. apply N.eqb_eq. Qed.

Lemma str_eqb_eq (a b : str) : str_eqb a b = true <-> a = b.
Proof.
  revert b. induction a as [|x a IH]; intros [|y b]; simpl;
    try (split; [discriminate | discriminate]); try tauto.
  rewrite andb_true_iff, char_eqb_eq, IH.
  split; [intros [-> ->]; reflexivity | intros H; inversion H; auto].
Qed.

Lemma str_eqb_refl (a : str) : str_eqb a a = true.
Proof. apply str_eqb_eq. reflexivity. Qed.

Lemma startswith_spec (p s : str) :
  startswith p s = true <-> exists r, s = p ++ r.
Proof.
  revert s. induction p as [|a p IH]; intros s; simpl.
  - split; [intros _; exists s; reflexivity | reflexivity].
  - destruct s as [|b s].
    + split; [discriminate | intros [r H]; discriminate].
    + rewrite andb_true_iff, char_eqb_eq, IH. split.
      * intros [-> [r ->]]. exists r. reflexivity.
      * intros [r H]. inversion H. split; [reflexivity | exists r; reflexivity].
Qed.

Lemma contains_spec (sub s : str) :
  contains sub s = true <-> occurs_in sub s.
Proof.
  unfold occurs_in. induction s as [|c s IH]; simpl.
  - rewrite orb_false_r, startswith_spec. split.
    + intros [r H]. exists [], r. exact H.
    + intros [a [b H]]. destruct a; [exists b; exact H | discriminate].
  - rewrite orb_true_iff, startswith_spec, IH. split.
    + intros [[r H] | [a [b H]]].
      * exists [], r. exact H.
      * exists (c :: a), b. rewrite H. reflexivity.
    + intros [[|c' a] [b H]].
      * left. exists b. exact H.
      * right. inversion H. exists a, b. reflexivity.
Qed.

Lemma blank_app (a b : str) : blank a -> blank b -> blank (a ++ b).
Proof. unfold blank. intros. apply Forall_app. split; assumption. Qed.

Lemma lstrip_split (s : str) :
  exists w, blank w /\ s = w ++ lstrip s.
Proof.
  induction s as [|c s [w [Hw Hs]]]; simpl.
  - exists []. split; [constructor | reflexivity].
  - destruct (isspace c) eqn:Hc.
    + exists (c :: w). split; [constructor; assumption | ].
      simpl. f_equal. exact Hs.
    + exists []. split; [constructor | reflexivity].
Qed.

Lemma blank_rev (w : str) : blank w -> blank (rev w).
Proof. unfold blank. apply Forall_rev. Qed.

Lemma strip_split (s : str) :
  exists w1 w2, blank w1 /\ blank w2 /\ s = w1 ++ strip s ++ w2.
Proof.
  destruct (lstrip_split s) as [w1 [H1 E1]].
  destruct (lstrip_split (rev (lstrip s))) as [w2 [H2 E2]].
  exists w1, (rev w2). split; [exact H1 | split; [apply blank_rev; exact H2 | ]].
  unfold strip, rstrip. rewrite <- rev_app_distr, <- E2, rev_involutive.
  exact E1.
Qed.

Lemma tokenization_blank_l (w s : str) (toks : list str) :
  blank w -> tokenization s toks -> tokenization (w ++ s) toks.
Proof.
  intros Hw H. destruct H as [w0 H0 | w0 t rest toks H0 Ht Hr Hrest].
  - constructor. apply blank_app; assumption.
  - rewrite app_assoc. constructor; try assumption.
    apply blank_app; assumption.
Qed.

Lemma ends_word_blank_r (rest w : str) :
  ends_word rest -> blank w -> ends_word (rest ++ w).
Proof.
  intros Hr Hw. destruct rest as [|c rest]; simpl; [ | exact Hr].
  destruct Hw; simpl; auto.
Qed.

Lemma tokenization_blank_r (s w : str) (toks : list str) :
  tokenization s toks -> blank w -> tokenization (s ++ w) toks.
Proof.
  intros H Hw. induction H as [w0 H0 | w0 t rest toks H0 Ht Hr Hrest IH].
  - constructor. apply blank_app; assumption.
  - rewrite <- !app_assoc. constructor; try assumption.
    apply ends_word_blank_r; assumption.
Qed.

(** [split_from] with a token under way and with none. *)
Lemma split_from_spec (s : str) :
  tokenization s (split_from [] s)
  /\ forall cur, word cur ->
       exists t rest toks,
         split_from cur s = (cur ++ t) :: toks
         /\ s = t ++ rest
         /\ Forall (fun c => isspace c = false) t
         /\ ends_word rest
         /\ tokenization rest toks.
Proof.
  induction s as [|c s [IHnone IHcur]].
  - split.
    + simpl. constructor. constructor.
    + intros cur [Hne Hcur]. exists [], [], []. simpl.
      rewrite app_nil_r. destruct cur; [contradiction | ].
      repeat split; try constructor. constructor.
  - assert (Hblank : isspace c = true ->
                     tokenization (c :: s) (split_from [] s)).
    { intros Hc. apply (tokenization_blank_l [c]); [ | exact IHnone].
      constructor; [exact Hc | constructor]. }
    split.
    + simpl. destruct (isspace c) eqn:Hc.
      * apply Hblank. reflexivity.
      * destruct (IHcur [c]) as [t [rest [toks [E [Es [Ht [Hr Htoks]]]]]]].
        { split; [discriminate | constructor; [exact Hc | constructor]]. }
        rewrite E, Es.
        apply (tokens_cons [] ([c] ++ t) rest); try assumption.
        -- constructor.
        -- split; [discriminate | constructor; assumption].
    + intros cur [Hne Hcur]. simpl. destruct (isspace c) eqn:Hc.
      * exists [], (c :: s), (split_from [] s). rewrite app_nil_r.
        destruct cur; [contradiction | ].
        repeat split; try constructor; try assumption.
        apply Hblank. reflexivity.
      * destruct (IHcur (cur ++ [c])) as [t [rest [toks [E [Es [Ht [Hr Htoks]]]]]]].
        { split; [destruct cur; discriminate | ].
          apply Forall_app. split; [exact Hcur | ].
          constructor; [exact Hc | constructor]. }
        exists (c :: t), rest, toks. rewrite E, Es, <- app_assoc.
        repeat split; try assumption. constructor; assumption.
Qed.

Lemma split_tokenization (s : str) : tokenization s (split s).
Proof. apply split_from_spec. Qed.

(** The tokens of a text are those of the stripped text. *)
Lemma split_strip_tokenization (s : str) : tokenization s (split (strip s)).
Proof.
  destruct (strip_split s) as [w1 [w2 [H1 [H2 E]]]].
  rewrite E at 1. apply tokenization_blank_l; [exact H1 | ].
  apply tokenization_blank_r; [ | exact H2]. apply split_tokenization.
Qed.

Lemma word_boundary (t t' rest rest' : str) :
  Forall (fun c => isspace c = false) t ->
  Forall (fun c => isspace c = false) t' ->
  ends_word rest -> ends_word rest' ->
  t ++ rest = t' ++ rest' -> t = t' /\ rest = rest'.
Proof.
  intros Ht. revert t'. induction Ht as [|c t Hc Ht IH]; intros t' Ht' Hr Hr' E.
  - destruct Ht' as [|c' t' Hc' Ht']; [split; [reflexivity | exact E] | ].
    simpl in E. subst rest. simpl in Hr. congruence.
  - destruct Ht' as [|c' t' Hc' Ht'].
    + simpl in E. subst rest'. simpl in Hr'. congruence.
    + simpl in E. inversion E; subst c'.
      destruct (IH t' Ht' Hr Hr' H1) as [-> ->]. split; reflexivity.
Qed.

Lemma token_boundary (w w' t t' rest rest' : str) :
  blank w -> blank w' -> word t -> word t' ->
  ends_word rest -> ends_word rest' ->
  w ++ t ++ rest = w' ++ t' ++ rest' -> t = t' /\ rest = rest'.
Proof.
  intros Hw. revert w'.
  induction Hw as [|c w Hc Hw IH]; intros w' Hw' [Hne Ht] [Hne' Ht'] Hr Hr' E.
  - destruct Hw' as [|c' w' Hc' Hw'].
    + apply word_boundary; assumption.
    + destruct Ht as [|d t Hd Ht]; [contradiction | ].
      simpl in E. inversion E; subst. congruence.
  - destruct Hw' as [|c' w' Hc' Hw'].
    + destruct Ht' as [|d t' Hd Ht']; [contradiction | ].
      simpl in E. inversion E; subst. congruence.
    + simpl in E. inversion E; subst c'.
      apply (IH w'); try assumption; split; assumption.
Qed.

Lemma blank_no_word (w t rest s : str) :
  blank s -> word t -> s <> w ++ t ++ rest.
Proof.
  intros Hs [Hne Ht] E. subst s. unfold blank in Hs.
  apply Forall_app in Hs. destruct Hs as [_ Hs].
  apply Forall_app in Hs. destruct Hs as [Hs _].
  destruct Ht as [|c t Hc Ht]; [contradiction | ].
  inversion Hs; subst. congruence.
Qed.

Lemma tokenization_unique (s : str) (toks toks' : list str) :
  tokenization s toks -> tokenization s toks' -> toks = toks'.
Proof.
  intros H. revert toks'.
  induction H as [w Hw | w t rest toks Hw Ht Hr Hrest IH]; intros toks' H'.
  - inversion H' as [w' Hw' | w' t' rest' toks0 Hw' Ht' Hr' Hrest' E]; subst.
    + reflexivity.
    + exfalso. eapply blank_no_word; [exact Hw | exact Ht' | reflexivity].
  - remember (w ++ t ++ rest) as s eqn:Es.
    destruct H' as [w' Hw' | w' t' rest' toks0 Hw' Ht' Hr' Hrest'].
    + exfalso. eapply blank_no_word; [exact Hw' | exact Ht | exact Es].
    + destruct (token_boundary w' w t' t rest' rest Hw' Hw Ht' Ht Hr' Hr Es)
        as [-> ->].
      f_equal. apply IH. exact Hrest'.
Qed.

(* ================================================================= *)
(** ** The link extractor *)

Lemma names_host_spec (token : str) :
  names_host token = true <-> mentions_host token.
Proof.
  unfold names_host, mentions_host.
  rewrite orb_true_iff, !contains_spec. reflexivity.
Qed.

Lemma names_host_false (token : str) :
  names_host token = false -> ~ mentions_host token.
Proof.
  intros H Hm. apply names_host_spec in Hm. congruence.
Qed.

Lemma find_first {A : Type} (p : A -> bool) (l : list A) :
  match find p l with
  | Some x =>
      exists before after,
        l = before ++ x :: after /\ p x = true
        /\ Forall (fun y => p y = false) before
  | None => Forall (fun y => p y = false) l
  end.
Proof.
  induction l as [|a l IH]; simpl; [constructor | ].
  destruct (p a) eqn:Ha.
  - exists [], l. repeat split; [exact Ha | constructor].
  - destruct (find p l) as [x|].
    + destruct IH as [before [after [E [Hx Hb]]]].
      exists (a :: before), after. rewrite E.
      repeat split; [exact Hx | constructor; assumption].
    + constructor; assumption.
Qed.

(** C3. The tokens of a text are its maximal runs free of whitespace,
    which determines them. [extract_youtube_url] returns the first token in
    which "youtube.com" or "youtu.be" occurs, and [None] when no token has
    one; a text that is empty or all whitespace gives [None]. *)
Theorem extract_youtube_url_first_token (txt : str) :
  exists toks,
    tokenization txt toks
    /\ (forall toks', tokenization txt toks' -> toks' = toks)
    /\ match extract_youtube_url txt with
       | Some t =>
           exists before after,
             toks = before ++ t :: after
             /\ mentions_host t
             /\ Forall (fun p => ~ mentions_host p) before
       | None => Forall (fun p => ~ mentions_host p) toks
       end
    /\ (blank txt -> extract_youtube_url txt = None).
Proof.
  exists (split (strip txt)).
  assert (Htok := split_strip_tokenization txt).
  split; [exact Htok | ].
  split; [intros toks' H'; exact (tokenization_unique txt _ _ H' Htok) | ].
  split.
  - unfold extract_youtube_url.
    assert (H := find_first names_host (split (strip txt))).
    destruct (find names_host (split (strip txt))) as [t|].
    + destruct H as [before [after [E [Ht Hb]]]].
      exists before, after. split; [exact E | ].
      split; [apply names_host_spec; exact Ht | ].
      eapply Forall_impl; [ | exact Hb]. apply names_host_false.
    + eapply Forall_impl; [ | exact H]. apply names_host_false.
  - intros Hb. unfold extract_youtube_url.
    rewrite (tokenization_unique txt _ _ Htok (tokens_none txt Hb)).
    reflexivity.
Qed.

(* ================================================================= *)
(** ** The prompt *)

(** The template is its first 852 characters, the field and a newline. *)
Lemma template_shape :
  GEMINI_PROMPT_TEMPLATE
  = firstn 852 GEMINI_PROMPT_TEMPLATE ++ lit "{youtube_url}" ++ [10%N].
Proof. vm_compute. reflexivity. Qed.

Lemma template_head_no_brace :
  forallb (fun c => negb (char_eqb c Format.lbrace || char_eqb c Format.rbrace))
    (firstn 852 GEMINI_PROMPT_TEMPLATE) = true.
Proof. vm_compute. reflexivity. Qed.

(** C9. The template is a fixed text, the field [{youtube_url}] and a
    newline, and for every link
    [GEMINI_PROMPT_TEMPLATE.format(youtube_url=link)] returns that text,
    then the link as it is, then the newline: the prompt is a function of
    the link alone, and braces in the link are copied like any other
    character. *)
Theorem prompt_holds_link_verbatim :
  GEMINI_PROMPT_TEMPLATE
  = firstn 852 GEMINI_PROMPT_TEMPLATE ++ lit "{youtube_url}" ++ [10%N]
  /\ forall youtube_url : str,
       Format.format GEMINI_PROMPT_TEMPLATE [(lit "youtube_url", youtube_url)]
       = inr (firstn 852 GEMINI_PROMPT_TEMPLATE ++ youtube_url ++ [10%N]).
Proof.
  split; [exact template_shape | ].
  intros youtube_url. vm_compute. reflexivity.
Qed.

Lemma format_prompt (youtube_url : str) :
  Format.format GEMINI_PROMPT_TEMPLATE [(lit "youtube_url", youtube_url)]
  = inr (prompt_for youtube_url).
Proof. vm_compute. reflexivity. Qed.

Example prompt_with_braces :
  Format.format GEMINI_PROMPT_TEMPLATE
    [(lit "youtube_url", lit "https://youtu.be/{a}}{{b")]
  = inr (prompt_for (lit "https://youtu.be/{a}}{{b")).
Proof. vm_compute. reflexivity. Qed.

(* ================================================================= *)
(** ** The summarization client *)

Lemma issubclass_Exception (e : exn) : Exn.issubclass e Exn.Exception = true.
Proof. destruct e; reflexivity. Qed.

Lemma seq_item_0 {A : Type} (l : list A) : seq_item l 0 = hd_error l.
Proof. destruct l; reflexivity. Qed.

(** The chain of subscripts returns exactly when the document has the
    nested path, and then returns what the path leads to. *)
Lemma response_text_spec (data t : pyval) :
  response_text data = inr t <-> leads_to_text data t.
Proof.
  split.
  - unfold response_text, subscripts. intros H.
    destruct data; simpl in H; try discriminate.
    rewrite ?seq_item_0 in H.
    repeat (case_subscript; rewrite ?seq_item_0 in * );
      injection H as <-;
      eexists _, _, _, _, _, _; repeat split; eassumption.
  - intros [top [candidates [cand [content [parts [part [-> [E1 [E2 [E3 E4]]]]]]]]]].
    unfold response_text, subscripts. simpl. simpl in E1, E2, E3, E4.
    rewrite E1. simpl. rewrite E2. simpl. rewrite E3. simpl. rewrite E4.
    reflexivity.
Qed.

(** [call_gemini] makes one POST, of the prompt built for the link, and
    its outcome is decided by the answer. *)
Lemma call_gemini_run (key : str) (W : world) (url : str) (tr : list event) :
  call_gemini key W url tr
  = (client_outcome
       (post_result W (request_url key) (payload_of (prompt_for url))),
     tr ++ [Post (request_url key) (payload_of (prompt_for url))]).
Proof.
  unfold call_gemini, bind. rewrite format_prompt.
  unfold lift at 1, ret at 1, requests_post, client_outcome.
  destruct (post_result W (request_url key) (payload_of (prompt_for url)))
    as [f | resp]; [reflexivity | ].
  unfold raise_for_status.
  destruct ((400 <=? status_code resp)%Z && (status_code resp <? 600)%Z);
    [reflexivity | ].
  unfold ret at 1, response_json.
  destruct (json_body resp) as [data | ]; [ | reflexivity].
  unfold ret at 1, try_except, lift.
  destruct (response_text data) as [e | v]; [ | reflexivity].
  unfold raise. rewrite issubclass_Exception. reflexivity.
Qed.

(** C4. When the response has a status from 200 to 299 and a JSON body
    without the nested path [candidates[0].content.parts[0].text],
    [call_gemini] returns the fallback text and raises nothing. *)
Theorem malformed_body_gives_fallback
    (key : str) (W : world) (url : str) (resp : Response) (data : pyval) :
  post_result W (request_url key) (payload_of (prompt_for url)) = inr resp ->
  (200 <= status_code resp < 300)%Z ->
  json_body resp = Some data ->
  ~ has_expected_shape data ->
  run (call_gemini key W url)
  = (Returned (PStr FALLBACK_TEXT),
     [Post (request_url key) (payload_of (prompt_for url))]).
Proof.
  intros Hpost Hstatus Hbody Hshape.
  unfold run. rewrite call_gemini_run, Hpost. unfold client_outcome.
  replace ((400 <=? status_code resp)%Z && (status_code resp <? 600)%Z)
    with false by (symmetry; apply andb_false_iff; left; lia).
  rewrite Hbody.
  destruct (response_text data) as [e | v] eqn:E; [reflexivity | ].
  exfalso. apply Hshape. exists v. apply response_text_spec. exact E.
Qed.

(* ================================================================= *)
(** ** The handler *)

Lemma reply_text_trace (W : world) (v : pyval) (tr : list event) :
  snd (reply_text W v tr) = tr ++ [Reply v].
Proof. unfold reply_text. destruct (reply_fails W _ v); reflexivity. Qed.

Lemma reply_text_sent (W : world) (v : pyval) (tr : list event) :
  reply_fails W (List.length (filter is_reply tr)) v = false ->
  reply_text W v tr
  = (Returned (List.length (filter is_reply tr)), tr ++ [Reply v]).
Proof. intros H. unfold reply_text. rewrite H. reflexivity. Qed.

Lemma reply_then_return_trace (W : world) (v : pyval) (tr : list event) :
  snd ((reply_text W v ;; ret tt) tr) = tr ++ [Reply v].
Proof.
  unfold bind, reply_text. destruct (reply_fails W _ v); reflexivity.
Qed.

(** The cleanup of the [finally] clause calls [ack.delete()] once and
    returns, whether the call raises or not. *)
Lemma cleanup_run (W : world) (ack : nat) (tr : list event) :
  try_except (delete W ack) Exn.Exception (ret tt) tr
  = (Returned tt, tr ++ [Delete ack]).
Proof.
  unfold try_except, delete. destruct (delete_fails W); reflexivity.
Qed.

Lemma names_host_nonempty (token : str) : names_host token = true -> token <> [].
Proof. intros H ->. discriminate H. Qed.

Lemma extract_nonempty (txt url : str) :
  extract_youtube_url txt = Some url -> txt <> [] /\ url <> [].
Proof.
  intros H. split.
  - intros ->. discriminate H.
  - unfold extract_youtube_url in H. apply find_some in H.
    apply names_host_nonempty. apply H.
Qed.

(** With a link in the message the handler is: acknowledge, then the
    guarded region, then the cleanup. *)
Lemma handle_message_link
    (key : str) (W : world) (update : Update) (msg : Message) (txt url : str) :
  message update = Some msg ->
  text msg = Some txt ->
  extract_youtube_url txt = Some url ->
  handle_message key W update
  = (ack <- reply_text W (PStr ACK_TEXT) ;;
     try_finally (summarize_and_reply key W url)
       (try_except (delete W ack) Exn.Exception (ret tt))).
Proof.
  intros Hm Ht Hu. destruct (extract_nonempty txt url Hu) as [Htxt Hurl].
  unfold handle_message. rewrite Hm, Ht.
  destruct txt as [|c txt]; [contradiction | ]. rewrite Hu.
  destruct url as [|d url]; [contradiction | ]. reflexivity.
Qed.

(** Once the acknowledgment is sent, the handler ends as the guarded region
    does, after one more call: the deletion of the acknowledgment. *)
Lemma handle_message_after_ack
    (key : str) (W : world) (update : Update) (msg : Message) (txt url : str)
    (r : result unit) (tr : list event) :
  message update = Some msg ->
  text msg = Some txt ->
  extract_youtube_url txt = Some url ->
  reply_fails W 0 (PStr ACK_TEXT) = false ->
  summarize_and_reply key W url [Reply (PStr ACK_TEXT)] = (r, tr) ->
  run (handle_message key W update) = (r, tr ++ [Delete 0]).
Proof.
  intros Hm Ht Hu Hack Hregion.
  rewrite (handle_message_link key W update msg txt url Hm Ht Hu).
  unfold run, bind. rewrite reply_text_sent by exact Hack.
  simpl app. unfold try_finally. rewrite Hregion, cleanup_run. reflexivity.
Qed.

Lemma for_each_trace {A : Type} (l : list A) (body : A -> M unit)
    (f : A -> event) (tr : list event) :
  (forall x tr', body x tr' = (Returned tt, tr' ++ [f x])) ->
  for_each l body tr = (Returned tt, tr ++ map f l).
Proof.
  intros Hbody. revert tr. induction l as [|x l IH]; intros tr; simpl.
  - rewrite app_nil_r. reflexivity.
  - unfold bind. rewrite Hbody, IH, <- app_assoc. reflexivity.
Qed.

Lemma reply_piece (W : world) (s : str) (i : Z) (tr : list event) :
  (forall n v, reply_fails W n v = false) ->
  (piece <- lift (py_slice (slice_is_hashable W) (PStr s)
                        i (i + max_len)) ;;
   reply_text W piece ;; ret tt) tr
  = (Returned tt, tr ++ [Reply (PStr (slice s i (i + max_len)))]).
Proof.
  intros Hok. unfold bind. simpl lift. unfold ret at 1.
  rewrite reply_text_sent by apply Hok. reflexivity.
Qed.

(** The guarded region when the client returns a string and no reply
    fails: the pieces of the string are sent in order. *)
Lemma summarize_string
    (key : str) (W : world) (url s : str) (tr : list event) :
  (forall n v, reply_fails W n v = false) ->
  client_outcome
    (post_result W (request_url key) (payload_of (prompt_for url)))
  = Returned (PStr s) ->
  summarize_and_reply key W url tr
  = (Returned tt,
     tr ++ [Post (request_url key) (payload_of (prompt_for url))]
     ++ map (fun p => Reply (PStr p)) (pieces s)).
Proof.
  intros Hok Hclient.
  unfold summarize_and_reply, try_except, bind.
  rewrite call_gemini_run, Hclient.
  change (py_len (PStr s)) with (@inr exn Z (len s)).
  unfold lift at 1, ret at 1. unfold pieces. destruct (len s <=? max_len)%Z.
  - rewrite reply_text_sent by apply Hok. unfold ret.
    rewrite <- app_assoc. reflexivity.
  - rewrite (for_each_trace _ _
               (fun i => Reply (PStr (slice s i (i + max_len)))))
      by (intros i tr'; apply (reply_piece W s i tr' Hok)).
    rewrite map_map, <- app_assoc. reflexivity.
Qed.

(** The guarded region when the client raises a [RequestException]: the
    error text is sent. *)
Lemma summarize_request_exception
    (key : str) (W : world) (url : str) (e : exn) (tr : list event) :
  client_outcome
    (post_result W (request_url key) (payload_of (prompt_for url)))
  = Raised e ->
  Exn.issubclass e Exn.RequestException = true ->
  snd (summarize_and_reply key W url tr)
  = tr ++ [Post (request_url key) (payload_of (prompt_for url));
           Reply (PStr ERROR_TEXT)].
Proof.
  intros Hclient Hsub.
  unfold summarize_and_reply, try_except.
  unfold bind at 1. rewrite call_gemini_run, Hclient, Hsub.
  rewrite reply_then_return_trace, <- app_assoc. reflexivity.
Qed.

(* ================================================================= *)
(** ** Cutting a sequence into slices *)

Section Slices.

Context {A : Type}.
Variable s : list A.
Variable step : Z.
Hypothesis step_pos : (0 < step)%Z.

Lemma cut_eq (i : Z) :
  slice s i (i + step) = firstn (Z.to_nat step) (skipn (Z.to_nat i) s).
Proof. unfold slice. f_equal. f_equal. lia. Qed.

Lemma cut_len_le (i : Z) : (len (slice s i (i + step)) <= step)%Z.
Proof.
  rewrite cut_eq. unfold len.
  assert (H := firstn_le_length (Z.to_nat step) (skipn (Z.to_nat i) s)).
  lia.
Qed.

Lemma cut_len_full (i : Z) :
  (0 <= i)%Z -> (i + step <= len s)%Z -> len (slice s i (i + step)) = step.
Proof.
  intros Hi Hfull. rewrite cut_eq. unfold len in *.
  rewrite length_firstn, length_skipn. lia.
Qed.

(** The slices of a range put end to end give back what lies beyond the
    start of the range. *)
Lemma concat_cuts (fuel : nat) (i : Z) :
  (0 <= i)%Z -> (len s - i <= Z.of_nat fuel)%Z ->
  List.concat (map (fun i => slice s i (i + step)) (range_from fuel i (len s) step)) = skipn (Z.to_nat i) s.
Proof.
  revert i. induction fuel as [|fuel IH]; intros i Hi Hfuel.
  - simpl. symmetry. apply skipn_all2. unfold len in Hfuel. lia.
  - simpl. destruct (i <? len s)%Z eqn:Hlt.
    + simpl. rewrite IH by lia. rewrite cut_eq.
      replace (Z.to_nat (i + step)) with (Z.to_nat step + Z.to_nat i)%nat
        by lia.
      rewrite <- skipn_skipn. apply firstn_skipn.
    + simpl. symmetry. apply skipn_all2. apply Z.ltb_ge in Hlt.
      unfold len in Hlt. lia.
Qed.

(** Every slice of a range but the last is full. *)
Lemma cuts_full_but_last (fuel : nat) (i : Z) :
  (0 <= i)%Z ->
  Forall (fun c => len c = step)
    (removelast (map (fun i => slice s i (i + step)) (range_from fuel i (len s) step))).
Proof.
  revert i. induction fuel as [|fuel IH]; intros i Hi; [constructor | ].
  simpl range_from. destruct (i <? len s)%Z eqn:Hlt; [ | constructor].
  assert (Hrest := IH (i + step)%Z ltac:(lia)).
  destruct fuel as [|fuel]; [constructor | ].
  simpl range_from in *. destruct (i + step <? len s)%Z eqn:Hnext.
  - simpl map in *. simpl removelast at 1.
    constructor; [ | exact Hrest].
    apply cut_len_full; [exact Hi | ]. apply Z.ltb_lt in Hnext. lia.
  - constructor.
Qed.

(** A range from [i] holds [i], [i + step], [i + 2 step], ..., as many as
    are below the bound. *)
Lemma range_from_multiples (fuel : nat) (i n : Z) :
  (n - i <= Z.of_nat fuel)%Z ->
  exists m : nat,
    range_from fuel i n step
    = map (fun k => (i + Z.of_nat k * step)%Z) (seq 0 m)
    /\ (n <= i + Z.of_nat m * step)%Z
    /\ ((i < n)%Z -> (i + (Z.of_nat m - 1) * step < n)%Z)
    /\ ((n <= i)%Z -> m = O).
Proof.
  revert i. induction fuel as [|fuel IH]; intros i Hfuel.
  - exists O. simpl. repeat split; lia.
  - simpl. destruct (i <? n)%Z eqn:Hlt.
    + apply Z.ltb_lt in Hlt.
      destruct (IH (i + step)%Z ltac:(lia)) as [m [E [Hup [Hlow Hnone]]]].
      exists (S m). rewrite E. split; [ | split; [ | split]].
      * simpl. f_equal; [lia | ].
        rewrite <- seq_shift, map_map. apply map_ext. intros k. lia.
      * lia.
      * intros _. destruct (Z.lt_ge_cases (i + step) n) as [Hn | Hn].
        -- specialize (Hlow Hn). lia.
        -- rewrite (Hnone Hn). simpl. lia.
      * lia.
    + apply Z.ltb_ge in Hlt. exists O. simpl. repeat split; lia.
Qed.

End Slices.

(* ================================================================= *)
(** ** The pieces of a summary *)

Lemma max_len_pos : (0 < max_len)%Z.
Proof. reflexivity. Qed.

Lemma pieces_concat (s : str) : List.concat (pieces s) = s.
Proof.
  unfold pieces. destruct (len s <=? max_len)%Z.
  - simpl. apply app_nil_r.
  - unfold range. rewrite (concat_cuts s max_len max_len_pos); [reflexivity | | ];
      lia.
Qed.

Lemma pieces_len (s : str) : Forall (fun p => (len p <= max_len)%Z) (pieces s).
Proof.
  unfold pieces. destruct (len s <=? max_len)%Z eqn:Hle.
  - constructor; [apply Z.leb_le; exact Hle | constructor].
  - apply Forall_map, Forall_forall. intros i _. apply cut_len_le. exact max_len_pos.
Qed.

Lemma pieces_full_but_last (s : str) :
  Forall (fun p => len p = max_len) (removelast (pieces s)).
Proof.
  unfold pieces. destruct (len s <=? max_len)%Z.
  - constructor.
  - apply (cuts_full_but_last s max_len max_len_pos). lia.
Qed.

Lemma pieces_short (s : str) : (len s <= max_len)%Z -> pieces s = [s].
Proof.
  intros H. unfold pieces. apply Z.leb_le in H. rewrite H. reflexivity.
Qed.

Lemma pieces_long (s : str) :
  (max_len < len s)%Z ->
  exists m : nat,
    ((Z.of_nat m - 1) * max_len < len s <= Z.of_nat m * max_len)%Z
    /\ pieces s = map (nth_slice max_len s) (seq 0 m).
Proof.
  intros H. unfold pieces.
  replace (len s <=? max_len)%Z with false by (symmetry; apply Z.leb_gt; exact H).
  destruct (range_from_multiples max_len max_len_pos
              (Z.to_nat (len s - 0)) 0 (len s) ltac:(lia))
    as [m [E [Hup [Hlow _]]]].
  exists m. split.
  - assert (0 < len s)%Z by (pose proof max_len_pos; lia).
    specialize (Hlow ltac:(lia)). lia.
  - unfold range. rewrite E, map_map. apply map_ext. intros k.
    unfold nth_slice. reflexivity.
Qed.

Lemma pieces_8500 (s : str) :
  len s = 8500%Z ->
  exists a b c,
    pieces s = [a; b; c]
    /\ len a = 4000%Z /\ len b = 4000%Z /\ len c = 500%Z.
Proof.
  intros H. unfold pieces. rewrite H.
  change (range 0 8500 max_len) with [0; 4000; 8000]%Z.
  change (8500 <=? max_len)%Z with false. simpl map.
  eexists _, _, _. split; [reflexivity | ].
  change 4000%Z with max_len.
  split; [ | split].
  - apply (cut_len_full s max_len max_len_pos); rewrite ?H; unfold max_len; lia.
  - apply (cut_len_full s max_len max_len_pos); rewrite ?H; unfold max_len; lia.
  - unfold slice, len in *. rewrite length_firstn, length_skipn.
    unfold max_len. lia.
Qed.

(* ================================================================= *)
(** ** What the handler sends *)

Lemma client_outcome_of_run (key : str) (W : world) (url : str) :
  fst (run (call_gemini key W url))
  = client_outcome
      (post_result W (request_url key) (payload_of (prompt_for url))).
Proof. unfold run. rewrite call_gemini_run. reflexivity. Qed.

(** The run of the handler when the client returns a string and every
    reply is accepted. *)
Lemma handle_message_string
    (key : str) (W : world) (update : Update) (msg : Message)
    (txt url s : str) :
  message update = Some msg ->
  text msg = Some txt ->
  extract_youtube_url txt = Some url ->
  (forall n v, reply_fails W n v = false) ->
  fst (run (call_gemini key W url)) = Returned (PStr s) ->
  run (handle_message key W update)
  = (Returned tt,
     [Reply (PStr ACK_TEXT);
      Post (request_url key) (payload_of (prompt_for url))]
     ++ map (fun p => Reply (PStr p)) (pieces s) ++ [Delete 0]).
Proof.
  intros Hm Ht Hu Hok Hclient. rewrite client_outcome_of_run in Hclient.
  rewrite (handle_message_after_ack key W update msg txt url (Returned tt)
             ([Reply (PStr ACK_TEXT)]
              ++ [Post (request_url key) (payload_of (prompt_for url))]
              ++ map (fun p => Reply (PStr p)) (pieces s)) Hm Ht Hu (Hok _ _)).
  - rewrite <- !app_assoc. reflexivity.
  - apply summarize_string; assumption.
Qed.

(** C1. When the message holds a link, the client returns the string [s]
    and the platform accepts the replies, the handler sends the
    acknowledgment, makes the POST, sends the replies below and deletes
    the acknowledgment. The replies are [s] alone when [len(s) <= 4000];
    otherwise the slices [s[0:4000]], [s[4000:8000]], ... in this order,
    up to the one that reaches the end of [s]. For [len(s) = 8500] they are
    three, of lengths 4000, 4000 and 500. *)
Theorem summary_sent_in_slices
    (key : str) (W : world) (update : Update) (msg : Message)
    (txt url s : str) :
  message update = Some msg ->
  text msg = Some txt ->
  extract_youtube_url txt = Some url ->
  (forall n v, reply_fails W n v = false) ->
  fst (run (call_gemini key W url)) = Returned (PStr s) ->
  exists replies : list str,
    run (handle_message key W update)
    = (Returned tt,
       [Reply (PStr ACK_TEXT);
        Post (request_url key) (payload_of (prompt_for url))]
       ++ map (fun p => Reply (PStr p)) replies ++ [Delete 0])
    /\ ((len s <= 4000)%Z -> replies = [s])
    /\ ((4000 < len s)%Z ->
        exists m : nat,
          ((Z.of_nat m - 1) * 4000 < len s <= Z.of_nat m * 4000)%Z
          /\ replies = map (nth_slice 4000 s) (seq 0 m))
    /\ (len s = 8500%Z ->
        exists a b c,
          replies = [a; b; c]
          /\ len a = 4000%Z /\ len b = 4000%Z /\ len c = 500%Z).
Proof.
  intros Hm Ht Hu Hok Hclient. exists (pieces s).
  split; [ | split; [ | split]].
  - apply (handle_message_string key W update msg txt url s); assumption.
  - apply pieces_short.
  - apply pieces_long.
  - apply pieces_8500.
Qed.

Lemma summary_sent_in_slices_witness :
  exists replies : list str,
    run (handle_message sample_key
           (world_answering
              (inr (response_with 200
                      (Some (body_with_text (PStr long_summary))))) true)
           sample_update)
    = (Returned tt,
       [Reply (PStr ACK_TEXT);
        Post (request_url sample_key) (payload_of (prompt_for sample_link))]
       ++ map (fun p => Reply (PStr p)) replies ++ [Delete 0])
    /\ ((len long_summary <= 4000)%Z -> replies = [long_summary])
    /\ ((4000 < len long_summary)%Z ->
        exists m : nat,
          ((Z.of_nat m - 1) * 4000 < len long_summary <= Z.of_nat m * 4000)%Z
          /\ replies = map (nth_slice 4000 long_summary) (seq 0 m))
    /\ (len long_summary = 8500%Z ->
        exists a b c,
          replies = [a; b; c]
          /\ len a = 4000%Z /\ len b = 4000%Z /\ len c = 500%Z).
Proof.
  apply (summary_sent_in_slices sample_key
           (world_answering
              (inr (response_with 200
                      (Some (body_with_text (PStr long_summary))))) true)
           sample_update
           {| text := Some (lit "check this out https://youtu.be/abc123 thanks");
              chat_id := 42 |}
           (lit "check this out https://youtu.be/abc123 thanks")
           sample_link long_summary).
  - reflexivity.
  - reflexivity.
  - vm_compute. reflexivity.
  - intros n v. reflexivity.
  - vm_compute. reflexivity.
Defined.

(** C2. Under the same conditions the strings sent as replies, put end to
    end in the order they are sent, are the summary; none is longer than
    4000 and all but the last have length 4000. *)
Theorem chunks_rebuild_summary
    (key : str) (W : world) (update : Update) (msg : Message)
    (txt url s : str) :
  message update = Some msg ->
  text msg = Some txt ->
  extract_youtube_url txt = Some url ->
  (forall n v, reply_fails W n v = false) ->
  fst (run (call_gemini key W url)) = Returned (PStr s) ->
  exists chunks : list str,
    run (handle_message key W update)
    = (Returned tt,
       [Reply (PStr ACK_TEXT);
        Post (request_url key) (payload_of (prompt_for url))]
       ++ map (fun p => Reply (PStr p)) chunks ++ [Delete 0])
    /\ List.concat chunks = s
    /\ Forall (fun c => (len c <= 4000)%Z) chunks
    /\ Forall (fun c => len c = 4000%Z) (removelast chunks).
Proof.
  intros Hm Ht Hu Hok Hclient. exists (pieces s).
  split; [ | split; [ | split]].
  - apply (handle_message_string key W update msg txt url s); assumption.
  - apply pieces_concat.
  - apply pieces_len.
  - apply pieces_full_but_last.
Qed.

Lemma chunks_rebuild_summary_witness :
  exists chunks : list str,
    run (handle_message sample_key
           (world_answering
              (inr (response_with 200
                      (Some (body_with_text (PStr long_summary))))) false)
           sample_update)
    = (Returned tt,
       [Reply (PStr ACK_TEXT);
        Post (request_url sample_key) (payload_of (prompt_for sample_link))]
       ++ map (fun p => Reply (PStr p)) chunks ++ [Delete 0])
    /\ List.concat chunks = long_summary
    /\ Forall (fun c => (len c <= 4000)%Z) chunks
    /\ Forall (fun c => len c = 4000%Z) (removelast chunks).
Proof.
  apply (chunks_rebuild_summary sample_key
           (world_answering
              (inr (response_with 200
                      (Some (body_with_text (PStr long_summary))))) false)
           sample_update
           {| text := Some (lit "check this out https://youtu.be/abc123 thanks");
              chat_id := 42 |}
           (lit "check this out https://youtu.be/abc123 thanks")
           sample_link long_summary).
  - reflexivity.
  - reflexivity.
  - vm_compute. reflexivity.
  - intros n v. reflexivity.
  - vm_compute. reflexivity.
Defined.

Lemma malformed_body_gives_fallback_witness :
  run (call_gemini sample_key
         (world_answering (inr (response_with 200 (Some (PDict [])))) false)
         sample_link)
  = (Returned (PStr FALLBACK_TEXT),
     [Post (request_url sample_key) (payload_of (prompt_for sample_link))]).
Proof.
  apply (malformed_body_gives_fallback sample_key
           (world_answering (inr (response_with 200 (Some (PDict [])))) false)
           sample_link (response_with 200 (Some (PDict []))) (PDict [])).
  - reflexivity.
  - split; [discriminate | reflexivity].
  - reflexivity.
  - intros [t [top [candidates [cand [content [parts [part [E [H _]]]]]]]]].
    injection E as <-. discriminate H.
Defined.

Lemma transport_exn_request (f : transport_failure) :
  Exn.issubclass (transport_exn f) Exn.RequestException = true.
Proof. destruct f; reflexivity. Qed.

(** The run of the handler when the client raises a [RequestException]. *)
Lemma handle_message_request_exception
    (key : str) (W : world) (update : Update) (msg : Message)
    (txt url : str) (e : exn) :
  message update = Some msg ->
  text msg = Some txt ->
  extract_youtube_url txt = Some url ->
  reply_fails W 0 (PStr ACK_TEXT) = false ->
  client_outcome
    (post_result W (request_url key) (payload_of (prompt_for url)))
  = Raised e ->
  Exn.issubclass e Exn.RequestException = true ->
  snd (run (handle_message key W update))
  = [Reply (PStr ACK_TEXT);
     Post (request_url key) (payload_of (prompt_for url));
     Reply (PStr ERROR_TEXT); Delete 0].
Proof.
  intros Hm Ht Hu Hack Hclient Hsub.
  destruct (summarize_and_reply key W url [Reply (PStr ACK_TEXT)])
    as [r tr] eqn:E.
  rewrite (handle_message_after_ack key W update msg txt url r tr
             Hm Ht Hu Hack E).
  assert (Htr := summarize_request_exception key W url e
                   [Reply (PStr ACK_TEXT)] Hclient Hsub).
  rewrite E in Htr. simpl in Htr. simpl. rewrite Htr. reflexivity.
Qed.

(** C5, amended. When [requests.post] fails in transport, or the response
    has a status from 400 to 599, [call_gemini] raises a
    [RequestException] after its POST, and the handler, which had sent the
    acknowledgment, sends the error text and no summary, then deletes the
    acknowledgment. *)
Theorem request_failure_reported
    (key : str) (W : world) (update : Update) (msg : Message)
    (txt url : str) :
  message update = Some msg ->
  text msg = Some txt ->
  extract_youtube_url txt = Some url ->
  reply_fails W 0 (PStr ACK_TEXT) = false ->
  match post_result W (request_url key) (payload_of (prompt_for url)) with
  | inl _ => True
  | inr resp => (400 <= status_code resp < 600)%Z
  end ->
  (exists e,
      run (call_gemini key W url)
      = (Raised e, [Post (request_url key) (payload_of (prompt_for url))])
      /\ Exn.issubclass e Exn.RequestException = true)
  /\ snd (run (handle_message key W update))
     = [Reply (PStr ACK_TEXT);
        Post (request_url key) (payload_of (prompt_for url));
        Reply (PStr ERROR_TEXT); Delete 0].
Proof.
  intros Hm Ht Hu Hack Hfail.
  assert (Hclient : exists e,
             client_outcome
               (post_result W (request_url key) (payload_of (prompt_for url)))
             = Raised e
             /\ Exn.issubclass e Exn.RequestException = true).
  { destruct (post_result W (request_url key) (payload_of (prompt_for url)))
      as [f | resp].
    - exists (transport_exn f). split; [reflexivity | ].
      apply transport_exn_request.
    - exists Exn.HTTPError. split; [ | reflexivity]. unfold client_outcome.
      replace ((400 <=? status_code resp)%Z && (status_code resp <? 600)%Z)
        with true by (symmetry; apply andb_true_iff; split; lia).
      reflexivity. }
  destruct Hclient as [e [Hclient Hsub]]. split.
  - exists e. split; [ | exact Hsub].
    unfold run. rewrite call_gemini_run, Hclient. reflexivity.
  - apply (handle_message_request_exception key W update msg txt url e);
      assumption.
Qed.

Lemma request_failure_reported_witness :
  (exists e,
      run (call_gemini sample_key
             (world_answering (inr (response_with 503 None)) false)
             sample_link)
      = (Raised e,
         [Post (request_url sample_key)
            (payload_of (prompt_for sample_link))])
      /\ Exn.issubclass e Exn.RequestException = true)
  /\ snd (run (handle_message sample_key
                 (world_answering (inr (response_with 503 None)) false)
                 sample_update))
     = [Reply (PStr ACK_TEXT);
        Post (request_url sample_key) (payload_of (prompt_for sample_link));
        Reply (PStr ERROR_TEXT); Delete 0].
Proof.
  apply (request_failure_reported sample_key
           (world_answering (inr (response_with 503 None)) false)
           sample_update
           {| text := Some (lit "check this out https://youtu.be/abc123 thanks");
              chat_id := 42 |}
           (lit "check this out https://youtu.be/abc123 thanks")
           sample_link).
  - reflexivity.
  - reflexivity.
  - vm_compute. reflexivity.
  - reflexivity.
  - split; [discriminate | reflexivity].
Defined.

(** C5 as stated fails: a response with status 300 and a JSON body is not
    a 2xx response and is one the HTTP stack hands over (300 is neither
    followed as a redirection nor stripped of its body), yet
    [raise_for_status] lets it pass, the client returns the text of its
    body and the handler sends that text as the summary. *)
Lemma status_300_is_not_reported :
  ~ (forall (key : str) (W : world) (update : Update) (msg : Message)
            (txt url : str) (resp : Response),
        message update = Some msg ->
        text msg = Some txt ->
        extract_youtube_url txt = Some url ->
        reply_fails W 0 (PStr ACK_TEXT) = false ->
        post_result W (request_url key) (payload_of (prompt_for url))
        = inr resp ->
        deliverable resp ->
        ~ (200 <= status_code resp < 300)%Z ->
        (exists e, fst (run (call_gemini key W url)) = Raised e)
        /\ snd (run (handle_message key W update))
           = [Reply (PStr ACK_TEXT);
              Post (request_url key) (payload_of (prompt_for url));
              Reply (PStr ERROR_TEXT); Delete 0]).
Proof.
  intros H.
  destruct (H sample_key
              (world_answering
                 (inr (response_with 300
                         (Some (body_with_text (PStr (lit "summary"))))))
                 false)
              sample_update
              {| text := Some (lit "check this out https://youtu.be/abc123 thanks");
                 chat_id := 42 |}
              (lit "check this out https://youtu.be/abc123 thanks")
              sample_link
              (response_with 300
                 (Some (body_with_text (PStr (lit "summary")))))
              eq_refl eq_refl eq_refl eq_refl eq_refl)
    as [[e He] _].
  - intros Hbodiless. discriminate Hbodiless.
  - simpl. lia.
  - vm_compute in He. discriminate He.
Qed.

(** The run of the handler when the client raises an exception that is
    not a [RequestException]: nothing is caught, nothing more is sent. *)
Lemma handle_message_other_exception
    (key : str) (W : world) (update : Update) (msg : Message)
    (txt url : str) (e : exn) :
  message update = Some msg ->
  text msg = Some txt ->
  extract_youtube_url txt = Some url ->
  reply_fails W 0 (PStr ACK_TEXT) = false ->
  client_outcome
    (post_result W (request_url key) (payload_of (prompt_for url)))
  = Raised e ->
  Exn.issubclass e Exn.RequestException = false ->
  run (handle_message key W update)
  = (Raised e,
     [Reply (PStr ACK_TEXT);
      Post (request_url key) (payload_of (prompt_for url)); Delete 0]).
Proof.
  intros Hm Ht Hu Hack Hclient Hsub.
  rewrite (handle_message_after_ack key W update msg txt url (Raised e)
             ([Reply (PStr ACK_TEXT)]
              ++ [Post (request_url key) (payload_of (prompt_for url))])
             Hm Ht Hu Hack).
  - reflexivity.
  - unfold summarize_and_reply, try_except.
    unfold bind at 1. rewrite call_gemini_run, Hclient, Hsub. reflexivity.
Qed.

(** C10, amended. When the response has a status from 200 to 299 and
    [response.json()] raises, the exception leaves [call_gemini] before
    the guarded subscripts are reached, so the fallback text is not
    returned. When the exception is [requests.exceptions.JSONDecodeError]
    (a body that is not JSON text, under requests 2.27 or later), it is a
    [RequestException] and the handler, which had sent the
    acknowledgment, sends the error text. When it is another one
    ([json.JSONDecodeError] under an earlier requests, the [ValueError]
    of an over-long integer, the [RecursionError] of a deep nesting), the
    handler sends nothing more, deletes the acknowledgment and the
    exception leaves it. *)
Theorem undecodable_body_reported
    (key : str) (W : world) (update : Update) (msg : Message)
    (txt url : str) (resp : Response) :
  message update = Some msg ->
  text msg = Some txt ->
  extract_youtube_url txt = Some url ->
  reply_fails W 0 (PStr ACK_TEXT) = false ->
  post_result W (request_url key) (payload_of (prompt_for url)) = inr resp ->
  (200 <= status_code resp < 300)%Z ->
  json_body resp = None ->
  run (call_gemini key W url)
  = (Raised (decode_exn (json_failure resp)),
     [Post (request_url key) (payload_of (prompt_for url))])
  /\ (json_failure resp = NotJSON_wrapped ->
      Exn.issubclass (decode_exn (json_failure resp)) Exn.RequestException
      = true
      /\ snd (run (handle_message key W update))
         = [Reply (PStr ACK_TEXT);
            Post (request_url key) (payload_of (prompt_for url));
            Reply (PStr ERROR_TEXT); Delete 0])
  /\ (json_failure resp <> NotJSON_wrapped ->
      run (handle_message key W update)
      = (Raised (decode_exn (json_failure resp)),
         [Reply (PStr ACK_TEXT);
          Post (request_url key) (payload_of (prompt_for url)); Delete 0])).
Proof.
  intros Hm Ht Hu Hack Hpost Hstatus Hbody.
  assert (Hclient :
            client_outcome
              (post_result W (request_url key) (payload_of (prompt_for url)))
            = Raised (decode_exn (json_failure resp))).
  { rewrite Hpost. unfold client_outcome.
    replace ((400 <=? status_code resp)%Z && (status_code resp <? 600)%Z)
      with false by (symmetry; apply andb_false_iff; left; lia).
    rewrite Hbody. reflexivity. }
  split; [ | split].
  - unfold run. rewrite call_gemini_run, Hclient. reflexivity.
  - intros Hwrapped.
    assert (Hsub : Exn.issubclass (decode_exn (json_failure resp))
                     Exn.RequestException = true)
      by (rewrite Hwrapped; reflexivity).
    split; [exact Hsub | ].
    apply (handle_message_request_exception key W update msg txt url
             (decode_exn (json_failure resp))); assumption.
  - intros Hother.
    apply (handle_message_other_exception key W update msg txt url);
      try assumption.
    destruct (json_failure resp); try reflexivity. contradiction.
Qed.

Lemma undecodable_body_reported_witness :
  run (call_gemini sample_key
         (world_answering (inr (response_with 200 None)) false) sample_link)
  = (Raised (decode_exn (json_failure (response_with 200 None))),
     [Post (request_url sample_key) (payload_of (prompt_for sample_link))])
  /\ (json_failure (response_with 200 None) = NotJSON_wrapped ->
      Exn.issubclass (decode_exn (json_failure (response_with 200 None)))
        Exn.RequestException
      = true
      /\ snd (run (handle_message sample_key
                     (world_answering (inr (response_with 200 None)) false)
                     sample_update))
         = [Reply (PStr ACK_TEXT);
            Post (request_url sample_key)
              (payload_of (prompt_for sample_link));
            Reply (PStr ERROR_TEXT); Delete 0])
  /\ (json_failure (response_with 200 None) <> NotJSON_wrapped ->
      run (handle_message sample_key
             (world_answering (inr (response_with 200 None)) false)
             sample_update)
      = (Raised (decode_exn (json_failure (response_with 200 None))),
         [Reply (PStr ACK_TEXT);
          Post (request_url sample_key) (payload_of (prompt_for sample_link));
          Delete 0])).
Proof.
  apply (undecodable_body_reported sample_key
           (world_answering (inr (response_with 200 None)) false)
           sample_update
           {| text := Some (lit "check this out https://youtu.be/abc123 thanks");
              chat_id := 42 |}
           (lit "check this out https://youtu.be/abc123 thanks")
           sample_link (response_with 200 None)).
  - reflexivity.
  - reflexivity.
  - vm_compute. reflexivity.
  - reflexivity.
  - reflexivity.
  - split; [discriminate | reflexivity].
  - reflexivity.
Defined.

(** C10 as stated fails: a body of 2000 opening brackets is not JSON text;
    the decoder raises a [RecursionError] on it, which requests does not
    wrap and the [except] clause of the handler does not catch, so that no
    error text is sent and the exception leaves the handler. *)
Lemma deep_nesting_is_not_reported :
  ~ (forall (key : str) (W : world) (update : Update) (msg : Message)
            (txt url : str) (resp : Response),
        message update = Some msg ->
        text msg = Some txt ->
        extract_youtube_url txt = Some url ->
        reply_fails W 0 (PStr ACK_TEXT) = false ->
        post_result W (request_url key) (payload_of (prompt_for url))
        = inr resp ->
        (200 <= status_code resp < 300)%Z ->
        json_body resp = None ->
        snd (run (handle_message key W update))
        = [Reply (PStr ACK_TEXT);
           Post (request_url key) (payload_of (prompt_for url));
           Reply (PStr ERROR_TEXT); Delete 0]).
Proof.
  intros H.
  assert (Hu : extract_youtube_url sample_text = Some sample_link)
    by (vm_compute; reflexivity).
  assert (Hstatus : (200 <= 200 < 300)%Z) by lia.
  assert (E := H sample_key
                 (world_answering
                    (inr (response_failing 200 NestedTooDeep)) false)
                 sample_update sample_message sample_text sample_link
                 (response_failing 200 NestedTooDeep)
                 eq_refl eq_refl Hu eq_refl eq_refl Hstatus eq_refl).
  vm_compute in E. discriminate E.
Qed.

(** C6. Once the acknowledgment is sent, however the guarded region ends
    (by returning or by raising, with whatever it has sent) the handler
    then calls [ack.delete()] on the acknowledgment and ends as the region
    did, whether that call raises or not. *)
Theorem acknowledgment_always_deleted
    (key : str) (W : world) (update : Update) (msg : Message)
    (txt url : str) :
  message update = Some msg ->
  text msg = Some txt ->
  extract_youtube_url txt = Some url ->
  reply_fails W 0 (PStr ACK_TEXT) = false ->
  exists (r : result unit) (tr : list event),
    summarize_and_reply key W url [Reply (PStr ACK_TEXT)] = (r, tr)
    /\ run (handle_message key W update) = (r, tr ++ [Delete 0])
    /\ forall deletion_fails : bool,
         run (handle_message key
                {| post_result := post_result W;
                   reply_fails := reply_fails W;
                   slice_is_hashable := slice_is_hashable W;
                   delete_fails := deletion_fails |} update)
         = (r, tr ++ [Delete 0]).
Proof.
  intros Hm Ht Hu Hack.
  destruct (summarize_and_reply key W url [Reply (PStr ACK_TEXT)])
    as [r tr] eqn:E.
  exists r, tr. split; [reflexivity | split].
  - apply (handle_message_after_ack key W update msg txt url r tr);
      assumption.
  - intros deletion_fails.
    apply (handle_message_after_ack key _ update msg txt url r tr Hm Ht Hu).
    + exact Hack.
    + exact E.
Qed.

Lemma acknowledgment_always_deleted_witness :
  exists (r : result unit) (tr : list event),
    summarize_and_reply sample_key
      (world_answering (inl ConnectionFailed) true) sample_link
      [Reply (PStr ACK_TEXT)] = (r, tr)
    /\ run (handle_message sample_key
              (world_answering (inl ConnectionFailed) true) sample_update)
       = (r, tr ++ [Delete 0])
    /\ forall deletion_fails : bool,
         run (handle_message sample_key
                {| post_result :=
                     post_result (world_answering (inl ConnectionFailed) true);
                   reply_fails :=
                     reply_fails (world_answering (inl ConnectionFailed) true);
                   slice_is_hashable :=
                     slice_is_hashable
                       (world_answering (inl ConnectionFailed) true);
                   delete_fails := deletion_fails |} sample_update)
         = (r, tr ++ [Delete 0]).
Proof.
  apply (acknowledgment_always_deleted sample_key
           (world_answering (inl ConnectionFailed) true)
           sample_update
           {| text := Some (lit "check this out https://youtu.be/abc123 thanks");
              chat_id := 42 |}
           (lit "check this out https://youtu.be/abc123 thanks")
           sample_link).
  - reflexivity.
  - reflexivity.
  - vm_compute. reflexivity.
  - reflexivity.
Defined.

Lemma extract_none (txt : str) (toks : list str) :
  tokenization txt toks ->
  Forall (fun t => ~ mentions_host t) toks ->
  extract_youtube_url txt = None.
Proof.
  intros Htok Hnone. unfold extract_youtube_url.
  rewrite (tokenization_unique txt _ _ (split_strip_tokenization txt) Htok).
  destruct (find names_host toks) as [t|] eqn:E; [ | reflexivity].
  apply find_some in E. destruct E as [Hin Ht].
  rewrite Forall_forall in Hnone. exfalso. apply (Hnone t Hin).
  apply names_host_spec. exact Ht.
Qed.

(** C7. When the update has no message, or the message has no text, or no
    whitespace-delimited token of the text holds "youtube.com" or
    "youtu.be", the handler returns without any call to the outside
    world: no acknowledgment, no summary, no error text. *)
Theorem no_link_no_reply (key : str) (W : world) (update : Update) :
  (message update = None
   \/ exists msg,
        message update = Some msg
        /\ (text msg = None
            \/ exists txt toks,
                 text msg = Some txt
                 /\ tokenization txt toks
                 /\ Forall (fun t => ~ mentions_host t) toks)) ->
  run (handle_message key W update) = (Returned tt, []).
Proof.
  intros [Hm | [msg [Hm [Ht | [txt [toks [Ht [Htok Hnone]]]]]]]];
    unfold run, handle_message; rewrite Hm; try reflexivity;
    rewrite Ht; try reflexivity.
  rewrite (extract_none txt toks Htok Hnone).
  destruct txt; reflexivity.
Qed.

Lemma no_link_no_reply_witness :
  run (handle_message sample_key (world_answering (inl TimedOut) false)
         {| message :=
              Some {| text := Some (lit "  hello there  "); chat_id := 7 |} |})
  = (Returned tt, []).
Proof.
  apply (no_link_no_reply sample_key (world_answering (inl TimedOut) false)
           {| message :=
                Some {| text := Some (lit "  hello there  ");
                        chat_id := 7 |} |}).
  right. exists {| text := Some (lit "  hello there  "); chat_id := 7 |}.
  split; [reflexivity | ]. right.
  exists (lit "  hello there  "), (split (lit "  hello there  ")).
  split; [reflexivity | ]. split; [apply split_tokenization | ].
  repeat constructor; apply names_host_false; reflexivity.
Defined.

(* ================================================================= *)
(** ** Start of the process *)

(** C8, amended. When either variable is absent from the environment, or
    set to the empty string, the module raises [SystemExit] with its
    message before anything else is done, so the event loop is not
    started. When both are set to non-empty strings and the module is run
    as the main program, [main] runs: it builds the application with the
    token, registers the handler, prints and starts the event loop. *)
Theorem startup_needs_both_credentials
    (getenv : str -> option str) (is_main : bool) :
  (truthy (getenv (lit "TELEGRAM_BOT_TOKEN")) = false
   \/ truthy (getenv (lit "GEMINI_API_KEY")) = false ->
   module_body getenv is_main = ([], SystemExit EXIT_TEXT))
  /\ (getenv (lit "TELEGRAM_BOT_TOKEN") = None
      \/ getenv (lit "GEMINI_API_KEY") = None ->
      module_body getenv is_main = ([], SystemExit EXIT_TEXT))
  /\ (forall token api_key : str,
         getenv (lit "TELEGRAM_BOT_TOKEN") = Some token ->
         getenv (lit "GEMINI_API_KEY") = Some api_key ->
         token <> [] -> api_key <> [] ->
         module_body getenv true
         = ([BuildApplication (Some token); AddHandler;
             Print (lit "Bot starting..."); RunPolling], Loaded)).
Proof.
  assert (Hexit : truthy (getenv (lit "TELEGRAM_BOT_TOKEN")) = false
                  \/ truthy (getenv (lit "GEMINI_API_KEY")) = false ->
                  module_body getenv is_main = ([], SystemExit EXIT_TEXT)).
  { unfold module_body. intros [H | H]; rewrite H; [reflexivity | ].
    rewrite orb_true_r. reflexivity. }
  split; [exact Hexit | split].
  - intros [H | H]; apply Hexit; rewrite H; [left | right]; reflexivity.
  - intros token api_key Ht Hk Hne Hne'. unfold module_body.
    rewrite Ht, Hk. destruct token; [contradiction | ].
    destruct api_key; [contradiction | ]. reflexivity.
Qed.

(** C8 as stated fails: with the token set to the empty string both
    variables are present, yet the module raises [SystemExit]. *)
Lemma empty_token_stops_startup :
  ~ (forall getenv : str -> option str,
        getenv (lit "TELEGRAM_BOT_TOKEN") <> None ->
        getenv (lit "GEMINI_API_KEY") <> None ->
        snd (module_body getenv true) = Loaded).
Proof.
  intros H.
  assert (E := H env_empty_token ltac:(discriminate) ltac:(discriminate)).
  vm_compute in E. discriminate E.
Qed.

(* ================================================================= *)
(** ** Runs on sample inputs *)

Example extract_sample :
  extract_youtube_url (lit "check this out https://youtu.be/abc123 thanks")
  = Some (lit "https://youtu.be/abc123").
Proof. reflexivity. Qed.

Example extract_keeps_first :
  extract_youtube_url (lit " a youtube.com/x  b m.youtu.be/y ")
  = Some (lit "youtube.com/x").
Proof. reflexivity. Qed.

(** A short summary: one reply, then the acknowledgment is deleted. *)
Example run_short_summary :
  run (handle_message sample_key
         (world_answering
            (inr (response_with 200
                    (Some (body_with_text (PStr (lit "- point one
- point two"))))))
            false)
         sample_update)
  = (Returned tt,
     [Reply (PStr ACK_TEXT);
      Post (request_url sample_key) (payload_of (prompt_for sample_link));
      Reply (PStr (lit "- point one
- point two"));
      Delete 0]).
Proof. vm_compute. reflexivity. Qed.

(** 8500 characters: three replies. *)
Example run_long_summary :
  run (handle_message sample_key
         (world_answering
            (inr (response_with 200
                    (Some (body_with_text (PStr long_summary))))) false)
         sample_update)
  = (Returned tt,
     [Reply (PStr ACK_TEXT);
      Post (request_url sample_key) (payload_of (prompt_for sample_link));
      Reply (PStr (repeat 97%N 4000));
      Reply (PStr (repeat 97%N 4000));
      Reply (PStr (repeat 97%N 500));
      Delete 0]).
Proof. vm_compute. reflexivity. Qed.

(** The second slice is refused by the platform: the [TelegramError] is not
    a [RequestException], so the loop ends there, the acknowledgment is
    deleted and the error leaves the handler. *)
Example run_reply_refused :
  run (handle_message sample_key
         {| post_result :=
              fun _ _ =>
                inr (response_with 200
                       (Some (body_with_text (PStr long_summary))));
            reply_fails := fun n _ => Nat.eqb n 2;
            slice_is_hashable := true;
            delete_fails := false |}
         sample_update)
  = (Raised Exn.TelegramError,
     [Reply (PStr ACK_TEXT);
      Post (request_url sample_key) (payload_of (prompt_for sample_link));
      Reply (PStr (repeat 97%N 4000));
      Reply (PStr (repeat 97%N 4000));
      Delete 0]).
Proof. vm_compute. reflexivity. Qed.

(** The path leads to a number: the client returns the number, [len] raises
    a [TypeError], the acknowledgment is deleted and the error leaves the
    handler. *)
Example run_text_not_a_string :
  run (handle_message sample_key
         (world_answering
            (inr (response_with 200 (Some (body_with_text (PInt 5))))) false)
         sample_update)
  = (Raised Exn.TypeError,
     [Reply (PStr ACK_TEXT);
      Post (request_url sample_key) (payload_of (prompt_for sample_link));
      Delete 0]).
Proof. vm_compute. reflexivity. Qed.

(** Status 300 with a well-formed body: the text is sent as the summary. *)
Example run_status_300 :
  run (handle_message sample_key
         (world_answering
            (inr (response_with 300
                    (Some (body_with_text (PStr (lit "summary")))))) false)
         sample_update)
  = (Returned tt,
     [Reply (PStr ACK_TEXT);
      Post (request_url sample_key) (payload_of (prompt_for sample_link));
      Reply (PStr (lit "summary"));
      Delete 0]).
Proof. vm_compute. reflexivity. Qed.

(** A transport failure and a deletion that raises: the error text is sent
    and the handler returns. *)
Example run_timeout_deletion_raises :
  run (handle_message sample_key (world_answering (inl TimedOut) true)
         sample_update)
  = (Returned tt,
     [Reply (PStr ACK_TEXT);
      Post (request_url sample_key) (payload_of (prompt_for sample_link));
      Reply (PStr ERROR_TEXT);
      Delete 0]).
Proof. vm_compute. reflexivity. Qed.

(** The acknowledgment itself is refused: nothing else happens. *)
Example run_ack_refused :
  run (handle_message sample_key
         {| post_result := fun _ _ => inl TimedOut;
            reply_fails := fun _ _ => true;
            slice_is_hashable := true;
            delete_fails := false |}
         sample_update)
  = (Raised Exn.TelegramError, [Reply (PStr ACK_TEXT)]).
Proof. vm_compute. reflexivity. Qed.

Example startup_without_key :
  module_body
    (fun name =>
       if str_eqb name (lit "TELEGRAM_BOT_TOKEN") then Some (lit "T")
       else None)
    true
  = ([], SystemExit EXIT_TEXT).
Proof. reflexivity. Qed.

Example startup_with_both :
  module_body (fun _ => Some (lit "x")) true
  = ([BuildApplication (Some (lit "x")); AddHandler;
      Print (lit "Bot starting..."); RunPolling], Loaded).
Proof. reflexivity. Qed.

(* ================================================================= *)
(** ** More on the link extractor *)

Lemma tokenization_words (s : str) (toks : list str) :
  tokenization s toks -> Forall word toks.
Proof.
  intros H. induction H as [w Hw | w t rest toks Hw Ht Hr Hrest IH];
    constructor; assumption.
Qed.

Lemma tokenization_occurs (s : str) (toks : list str) (t : str) :
  tokenization s toks -> In t toks -> occurs_in t s.
Proof.
  intros H. induction H as [w Hw | w t0 rest toks Hw Ht Hr Hrest IH];
    intros Hin; [contradiction | ].
  destruct Hin as [-> | Hin].
  - exists w, rest. reflexivity.
  - destruct (IH Hin) as [a [b E]]. exists (w ++ t0 ++ a), b.
    rewrite E, <- !app_assoc. reflexivity.
Qed.

Lemma split_strip (s : str) : split (strip s) = split s.
Proof.
  apply (tokenization_unique s); [apply split_strip_tokenization | ].
  apply split_tokenization.
Qed.

Lemma blank_ends_word (w : str) : blank w -> ends_word w.
Proof. intros H. destruct H; simpl; auto. Qed.

(** The extracted link is a token of the text: it is not empty, holds no
    whitespace, is a contiguous part of the text and names a host. *)
Theorem extracted_link_is_part_of_text (txt url : str) :
  extract_youtube_url txt = Some url ->
  word url /\ occurs_in url txt /\ mentions_host url.
Proof.
  intros H. unfold extract_youtube_url in H. apply find_some in H.
  destruct H as [Hin Hhost].
  assert (Htok := split_strip_tokenization txt).
  split; [ | split].
  - assert (Hw := tokenization_words txt _ Htok).
    rewrite Forall_forall in Hw. apply Hw. exact Hin.
  - apply (tokenization_occurs txt _ url Htok Hin).
  - apply names_host_spec. exact Hhost.
Qed.

Lemma extracted_link_is_part_of_text_witness :
  word sample_link /\ occurs_in sample_link sample_text
  /\ mentions_host sample_link.
Proof.
  apply (extracted_link_is_part_of_text sample_text sample_link).
  reflexivity.
Defined.

(** The call of [strip] changes nothing: [split] alone already ignores
    the whitespace around the text. *)
Theorem strip_before_split_is_redundant (txt : str) :
  extract_youtube_url txt = find names_host (split txt).
Proof.
  unfold extract_youtube_url. f_equal.
  apply (tokenization_unique txt).
  - apply split_strip_tokenization.
  - apply split_tokenization.
Qed.

(** Whitespace added before and after a text does not change what is
    extracted from it. *)
Theorem extract_ignores_padding (w1 w2 txt : str) :
  blank w1 -> blank w2 ->
  extract_youtube_url (w1 ++ txt ++ w2) = extract_youtube_url txt.
Proof.
  intros H1 H2. unfold extract_youtube_url. f_equal.
  apply (tokenization_unique (w1 ++ txt ++ w2)).
  - apply split_strip_tokenization.
  - apply tokenization_blank_l; [exact H1 | ].
    apply tokenization_blank_r; [ | exact H2].
    apply split_strip_tokenization.
Qed.

Lemma extract_ignores_padding_witness :
  extract_youtube_url (lit "  " ++ sample_text ++ [10%N; 9%N])
  = extract_youtube_url sample_text.
Proof.
  apply (extract_ignores_padding (lit "  ") [10%N; 9%N] sample_text).
  - repeat constructor.
  - repeat constructor.
Defined.

(** No check of the URL is made: any string free of whitespace in which a
    host name occurs is extracted as it is, with or without whitespace
    around it. *)
Theorem any_token_naming_host_is_extracted (w1 w2 t : str) :
  word t -> mentions_host t -> blank w1 -> blank w2 ->
  extract_youtube_url (w1 ++ t ++ w2) = Some t.
Proof.
  intros Ht Hhost H1 H2. unfold extract_youtube_url.
  rewrite (tokenization_unique (w1 ++ t ++ w2) _ [t]
             (split_strip_tokenization _)).
  - simpl. apply names_host_spec in Hhost. rewrite Hhost. reflexivity.
  - apply tokens_cons; try assumption.
    + apply blank_ends_word. exact H2.
    + apply tokens_none. exact H2.
Qed.

Lemma any_token_naming_host_is_extracted_witness :
  extract_youtube_url (lit " " ++ lit "ftp:youtu.be?{}" ++ lit "  ")
  = Some (lit "ftp:youtu.be?{}").
Proof.
  apply (any_token_naming_host_is_extracted (lit " ") (lit "  ")
           (lit "ftp:youtu.be?{}")).
  - split; [discriminate | repeat constructor].
  - apply names_host_spec. reflexivity.
  - repeat constructor.
  - repeat constructor.
Defined.

(* ================================================================= *)
(** ** More on the summarization client *)

(** What [call_gemini] raises is a [RequestException], from the transport
    or the status, or what [response.json()] raised. *)
Lemma client_outcome_raised
    (answer : transport_failure + Response) (e : exn) :
  client_outcome answer = Raised e ->
  Exn.issubclass e Exn.RequestException = true
  \/ exists resp,
       answer = inr resp
       /\ json_body resp = None
       /\ e = decode_exn (json_failure resp).
Proof.
  unfold client_outcome. destruct answer as [f | resp].
  - intros H. injection H as <-. left. apply transport_exn_request.
  - destruct ((400 <=? status_code resp)%Z && (status_code resp <? 600)%Z).
    + intros H. injection H as <-. left. reflexivity.
    + destruct (json_body resp) as [data | ] eqn:Hbody.
      * destruct (response_text data); discriminate.
      * intros H. injection H as <-. right. exists resp. auto.
Qed.

(** Once the body is decoded, [call_gemini] returns. *)
Lemma client_outcome_decoded
    (resp : Response) (data : pyval) :
  ~ (400 <= status_code resp < 600)%Z ->
  json_body resp = Some data ->
  exists v, client_outcome (inr resp) = Returned v.
Proof.
  intros Hstatus Hbody. unfold client_outcome.
  replace ((400 <=? status_code resp)%Z && (status_code resp <? 600)%Z)
    with false
    by (symmetry; apply andb_false_iff; rewrite Z.leb_gt, Z.ltb_ge; lia).
  rewrite Hbody. destruct (response_text data) as [e | v]; eexists;
    reflexivity.
Qed.

(** When the status is outside 400..599 and the body has the nested path,
    [call_gemini] returns what the path leads to, whatever else the
    document holds: further candidates, further parts and other members
    are ignored, and the value is not required to be a string. *)
Theorem client_returns_text_at_path
    (key : str) (W : world) (url : str) (resp : Response) (data t : pyval) :
  post_result W (request_url key) (payload_of (prompt_for url)) = inr resp ->
  ~ (400 <= status_code resp < 600)%Z ->
  json_body resp = Some data ->
  leads_to_text data t ->
  run (call_gemini key W url)
  = (Returned t, [Post (request_url key) (payload_of (prompt_for url))]).
Proof.
  intros Hpost Hstatus Hbody Hpath.
  unfold run. rewrite call_gemini_run, Hpost. unfold client_outcome.
  replace ((400 <=? status_code resp)%Z && (status_code resp <? 600)%Z)
    with false
    by (symmetry; apply andb_false_iff;
        rewrite Z.leb_gt, Z.ltb_ge; lia).
  rewrite Hbody. apply response_text_spec in Hpath. rewrite Hpath.
  reflexivity.
Qed.

Lemma client_returns_text_at_path_witness :
  run (call_gemini sample_key
         (world_answering
            (inr (response_with 200
                    (Some (PDict
                             [(lit "usage", PInt 3);
                              (lit "candidates",
                               PList
                                 [PDict
                                    [(lit "content",
                                      PDict
                                        [(lit "parts",
                                          PList
                                            [PDict
                                               [(lit "text",
                                                 PStr (lit "first"))];
                                             PDict
                                               [(lit "text",
                                                 PStr (lit "second"))]])])];
                                  PNone])])))) false)
         sample_link)
  = (Returned (PStr (lit "first")),
     [Post (request_url sample_key) (payload_of (prompt_for sample_link))]).
Proof.
  apply (client_returns_text_at_path sample_key _ sample_link
           (response_with 200
              (Some (PDict
                       [(lit "usage", PInt 3);
                        (lit "candidates",
                         PList
                           [PDict
                              [(lit "content",
                                PDict
                                  [(lit "parts",
                                    PList
                                      [PDict
                                         [(lit "text", PStr (lit "first"))];
                                       PDict
                                         [(lit "text",
                                           PStr (lit "second"))]])])];
                            PNone])])))
           (PDict
              [(lit "usage", PInt 3);
               (lit "candidates",
                PList
                  [PDict
                     [(lit "content",
                       PDict
                         [(lit "parts",
                           PList
                             [PDict [(lit "text", PStr (lit "first"))];
                              PDict [(lit "text", PStr (lit "second"))]])])];
                   PNone])])
           (PStr (lit "first"))).
  - reflexivity.
  - intros [H1 H2]. apply H1. reflexivity.
  - reflexivity.
  - eexists _, _, _, _, _, _. repeat split; reflexivity.
Defined.

(** Whatever the outside world answers, [call_gemini] makes exactly one
    POST. When it raises, the exception is a [RequestException] (from the
    transport or from a status 400..599) or the one that
    [response.json()] raised. Once the body is decoded it returns,
    whatever the document: the errors of the subscripts ([KeyError],
    [IndexError], [TypeError]) never leave it. *)
Theorem client_posts_once_and_keeps_subscript_errors
    (key : str) (W : world) (url : str) (tr : list event) :
  exists r : result pyval,
    call_gemini key W url tr
    = (r, tr ++ [Post (request_url key) (payload_of (prompt_for url))])
    /\ match r with
       | Returned _ => True
       | Raised e =>
           Exn.issubclass e Exn.RequestException = true
           \/ exists resp,
                post_result W (request_url key) (payload_of (prompt_for url))
                = inr resp
                /\ json_body resp = None
                /\ e = decode_exn (json_failure resp)
       end
    /\ forall resp data,
         post_result W (request_url key) (payload_of (prompt_for url))
         = inr resp ->
         ~ (400 <= status_code resp < 600)%Z ->
         json_body resp = Some data ->
         exists v, r = Returned v.
Proof.
  rewrite call_gemini_run.
  eexists. split; [reflexivity | ]. split.
  - destruct (client_outcome _) as [v | e] eqn:E; [exact I | ].
    apply (client_outcome_raised _ e E).
  - intros resp data Hpost Hstatus Hbody. rewrite Hpost.
    apply (client_outcome_decoded resp data Hstatus Hbody).
Qed.

(** The prompts built for two different links differ. *)
Theorem prompts_differ_with_links (url1 url2 : str) :
  url1 <> url2 ->
  Format.format GEMINI_PROMPT_TEMPLATE [(lit "youtube_url", url1)]
  <> Format.format GEMINI_PROMPT_TEMPLATE [(lit "youtube_url", url2)].
Proof.
  intros Hne H. rewrite !format_prompt in H.
  assert (H' : prompt_for url1 = prompt_for url2) by congruence.
  unfold prompt_for in H'. apply app_inv_head in H'.
  apply app_inv_tail in H'. contradiction.
Qed.

Lemma prompts_differ_with_links_witness :
  Format.format GEMINI_PROMPT_TEMPLATE [(lit "youtube_url", sample_link)]
  <> Format.format GEMINI_PROMPT_TEMPLATE
       [(lit "youtube_url", sample_link ++ lit "0")].
Proof.
  apply (prompts_differ_with_links sample_link (sample_link ++ lit "0")).
  discriminate.
Defined.

(* ================================================================= *)
(** ** The handler in any world *)

Lemma reply_then_return_run (W : world) (v : pyval) (tr : list event) :
  (reply_text W v ;; ret tt) tr
  = (if reply_fails W (replies_so_far tr) v
     then Raised Exn.TelegramError else Returned tt,
     tr ++ [Reply v]).
Proof.
  unfold bind, reply_text, replies_so_far.
  destruct (reply_fails W _ v); reflexivity.
Qed.

Lemma reply_then_return_cases (W : world) (v : pyval) (tr : list event) :
  exists r evs,
    (reply_text W v ;; ret tt) tr = (r, tr ++ evs)
    /\ Forall (fun e => is_reply e = true) evs
    /\ no_request_exception r.
Proof.
  rewrite reply_then_return_run. eexists _, [Reply v].
  split; [reflexivity | ]. split; [repeat constructor | ].
  destruct (reply_fails W _ v); [reflexivity | exact I].
Qed.

Lemma py_len_error (v : pyval) (e : exn) :
  py_len v = inl e -> e = Exn.TypeError.
Proof. destruct v; simpl; intros H; congruence. Qed.

Lemma py_slice_error (hashable : bool) (v : pyval) (i j : Z) (e : exn) :
  py_slice hashable v i j = inl e ->
  Exn.issubclass e Exn.RequestException = false.
Proof.
  destruct v, hashable; simpl; intros H; try discriminate H;
    injection H as <-; reflexivity.
Qed.

Lemma reply_piece_cases (W : world) (v : pyval) (i : Z) (tr : list event) :
  exists r evs,
    (piece <- lift (py_slice (slice_is_hashable W) v i (i + max_len)) ;;
     reply_text W piece ;; ret tt) tr = (r, tr ++ evs)
    /\ Forall (fun e => is_reply e = true) evs
    /\ no_request_exception r.
Proof.
  unfold bind at 1.
  destruct (py_slice (slice_is_hashable W) v i (i + max_len))
    as [e | p] eqn:E.
  - apply py_slice_error in E. exists (Raised e), [].
    simpl. rewrite app_nil_r. split; [reflexivity | ].
    split; [constructor | exact E].
  - simpl lift. unfold ret at 1. apply reply_then_return_cases.
Qed.

Lemma for_each_replies_only {A : Type} (l : list A) (body : A -> M unit) :
  (forall x tr, exists r evs,
      body x tr = (r, tr ++ evs)
      /\ Forall (fun e => is_reply e = true) evs
      /\ no_request_exception r) ->
  forall tr, exists r evs,
    for_each l body tr = (r, tr ++ evs)
    /\ Forall (fun e => is_reply e = true) evs
    /\ no_request_exception r.
Proof.
  intros Hbody. induction l as [|x l IH]; intros tr.
  - exists (Returned tt), []. simpl. rewrite app_nil_r.
    split; [reflexivity | ]. split; [constructor | exact I].
  - destruct (Hbody x tr) as [r [evs [E [Hevs Hr]]]].
    simpl. unfold bind. rewrite E. destruct r as [[] | e].
    + destruct (IH (tr ++ evs)) as [r' [evs' [E' [Hevs' Hr']]]].
      exists r', (evs ++ evs'). rewrite E', <- app_assoc.
      split; [reflexivity | ]. split; [ | exact Hr'].
      apply Forall_app. split; assumption.
    + exists (Raised e), evs. split; [reflexivity | ]. split; assumption.
Qed.

(** Lines 62 to 67 for any value of [summary]. *)
Lemma send_summary_cases (W : world) (v : pyval) (tr : list event) :
  exists r evs,
    (n <- lift (py_len v) ;;
     if (n <=? max_len)%Z
     then reply_text W v ;; ret tt
     else for_each (range 0 n max_len)
            (fun i =>
               piece <- lift (py_slice (slice_is_hashable W) v i (i + max_len)) ;;
               reply_text W piece ;; ret tt)) tr
    = (r, tr ++ evs)
    /\ Forall (fun e => is_reply e = true) evs
    /\ no_request_exception r.
Proof.
  unfold bind at 1. destruct (py_len v) as [e | n] eqn:E.
  - apply py_len_error in E. subst e. exists (Raised Exn.TypeError), [].
    simpl. rewrite app_nil_r. split; [reflexivity | ].
    split; [constructor | reflexivity].
  - simpl lift. unfold ret at 1. destruct (n <=? max_len)%Z.
    + apply reply_then_return_cases.
    + apply for_each_replies_only. intros i tr'. apply reply_piece_cases.
Qed.

(** The guarded region in any world: one POST, then replies only; what
    it raises is not a [RequestException]. *)
Lemma region_cases (key : str) (W : world) (url : str) (tr : list event) :
  exists r evs,
    summarize_and_reply key W url tr
    = (r, tr ++ [Post (request_url key) (payload_of (prompt_for url))] ++ evs)
    /\ Forall (fun e => is_reply e = true) evs
    /\ no_request_exception r.
Proof.
  unfold summarize_and_reply, try_except. unfold bind at 1.
  rewrite call_gemini_run.
  destruct (client_outcome _) as [v | e] eqn:E.
  - destruct (send_summary_cases W v
                (tr ++ [Post (request_url key) (payload_of (prompt_for url))]))
      as [r [evs [Erun [Hevs Hr]]]].
    cbv beta. rewrite Erun. exists r, evs. rewrite <- app_assoc.
    split; [ | split; assumption].
    destruct r as [[] | e]; [reflexivity | ].
    simpl in Hr. rewrite Hr. reflexivity.
  - destruct (Exn.issubclass e Exn.RequestException) eqn:Hsub.
    + destruct (reply_then_return_cases W (PStr ERROR_TEXT)
                  (tr ++ [Post (request_url key)
                            (payload_of (prompt_for url))]))
        as [r [evs [Erun [Hevs Hr]]]].
      rewrite Erun. exists r, evs. rewrite <- app_assoc.
      split; [reflexivity | split; assumption].
    + exists (Raised e), []. rewrite !app_nil_r.
      split; [reflexivity | ]. split; [constructor | exact Hsub].
Qed.

Lemma ack_refused_run (key : str) (W : world) (update : Update)
    (msg : Message) (txt url : str) :
  message update = Some msg ->
  text msg = Some txt ->
  extract_youtube_url txt = Some url ->
  reply_fails W 0 (PStr ACK_TEXT) = true ->
  run (handle_message key W update)
  = (Raised Exn.TelegramError, [Reply (PStr ACK_TEXT)]).
Proof.
  intros Hm Ht Hu Hack.
  rewrite (handle_message_link key W update msg txt url Hm Ht Hu).
  unfold run, bind, reply_text. simpl filter. simpl List.length.
  rewrite Hack. reflexivity.
Qed.

(** The three ways a run of the handler can go. *)
Lemma handle_message_cases (key : str) (W : world) (update : Update) :
  run (handle_message key W update) = (Returned tt, [])
  \/ run (handle_message key W update)
     = (Raised Exn.TelegramError, [Reply (PStr ACK_TEXT)])
  \/ exists msg txt url r evs,
       message update = Some msg
       /\ text msg = Some txt
       /\ extract_youtube_url txt = Some url
       /\ run (handle_message key W update)
          = (r,
             [Reply (PStr ACK_TEXT);
              Post (request_url key) (payload_of (prompt_for url))]
             ++ evs ++ [Delete 0])
       /\ Forall (fun e => is_reply e = true) evs
       /\ no_request_exception r.
Proof.
  destruct (message update) as [msg | ] eqn:Hm;
    [ | left; unfold run, handle_message; rewrite Hm; reflexivity].
  destruct (text msg) as [txt | ] eqn:Ht;
    [ | left; unfold run, handle_message; rewrite Hm, Ht; reflexivity].
  destruct (extract_youtube_url txt) as [url | ] eqn:Hu.
  - destruct (reply_fails W 0 (PStr ACK_TEXT)) eqn:Hack.
    + right. left.
      apply (ack_refused_run key W update msg txt url); assumption.
    + right. right.
      destruct (region_cases key W url [Reply (PStr ACK_TEXT)])
        as [r [evs [E [Hevs Hr]]]].
      exists msg, txt, url, r, evs. repeat split; try assumption.
      rewrite (handle_message_after_ack key W update msg txt url r _
                 Hm Ht Hu Hack E).
      rewrite <- !app_assoc. reflexivity.
  - left. unfold run, handle_message. rewrite Hm, Ht, Hu.
    destruct txt; reflexivity.
Qed.

(** In any world and for any update, the calls made by the handler are:
    none; or the acknowledgment alone, refused; or the acknowledgment, one
    POST of the prompt for the link extracted from the text, replies, and
    last the deletion of the acknowledgment. There is never a second POST, nor a call after the
    deletion, nor a deletion of another message. *)
Theorem handler_calls_in_fixed_order
    (key : str) (W : world) (update : Update) :
  snd (run (handle_message key W update)) = []
  \/ snd (run (handle_message key W update)) = [Reply (PStr ACK_TEXT)]
  \/ exists msg txt url replies,
       message update = Some msg
       /\ text msg = Some txt
       /\ extract_youtube_url txt = Some url
       /\ snd (run (handle_message key W update))
          = [Reply (PStr ACK_TEXT);
             Post (request_url key) (payload_of (prompt_for url))]
            ++ replies ++ [Delete 0]
       /\ Forall (fun e => is_reply e = true) replies.
Proof.
  destruct (handle_message_cases key W update)
    as [E | [E | [msg [txt [url [r [evs [Hm [Ht [Hu [E [Hevs _]]]]]]]]]]]];
    rewrite E.
  - left. reflexivity.
  - right. left. reflexivity.
  - right. right. exists msg, txt, url, evs.
    repeat split; try assumption.
Qed.

(** In any world and for any update, no [RequestException] leaves the
    handler: what [call_gemini] raises of that kind is caught by the
    [except] clause, and nothing else in the handler raises one. *)
Theorem handler_raises_no_request_exception
    (key : str) (W : world) (update : Update) :
  no_request_exception (fst (run (handle_message key W update)))
  /\ forall e,
       fst (run (handle_message key W update)) = Raised e ->
       Exn.issubclass e Exn.RequestException = false.
Proof.
  assert (H : no_request_exception
                (fst (run (handle_message key W update)))).
  { destruct (handle_message_cases key W update)
      as [E | [E | [msg [txt [url [r [evs [_ [_ [_ [E [_ Hr]]]]]]]]]]]];
      rewrite E; simpl; [exact I | reflexivity | exact Hr]. }
  split; [exact H | ]. intros e He. rewrite He in H. exact H.
Qed.

(** When the platform refuses the acknowledgment, the [TelegramError]
    leaves the handler at once: no POST is made and nothing is deleted. *)
Theorem refused_acknowledgment_ends_handler
    (key : str) (W : world) (update : Update) (msg : Message)
    (txt url : str) :
  message update = Some msg ->
  text msg = Some txt ->
  extract_youtube_url txt = Some url ->
  reply_fails W 0 (PStr ACK_TEXT) = true ->
  run (handle_message key W update)
  = (Raised Exn.TelegramError, [Reply (PStr ACK_TEXT)]).
Proof.
  intros Hm Ht Hu Hrefused.
  destruct (extract_nonempty txt url Hu) as [Htxt Hurl].
  unfold run, handle_message. rewrite Hm, Ht.
  destruct txt as [|c txt]; [contradiction | ]. rewrite Hu.
  destruct url as [|d url]; [contradiction | ].
  unfold bind, reply_text. simpl filter. simpl List.length.
  rewrite Hrefused. reflexivity.
Qed.

Lemma refused_acknowledgment_ends_handler_witness :
  run (handle_message sample_key
         (world_refusing (inr (response_with 200 None)) 0) sample_update)
  = (Raised Exn.TelegramError, [Reply (PStr ACK_TEXT)]).
Proof.
  apply (refused_acknowledgment_ends_handler sample_key
           (world_refusing (inr (response_with 200 None)) 0)
           sample_update sample_message sample_text sample_link).
  - reflexivity.
  - reflexivity.
  - vm_compute. reflexivity.
  - reflexivity.
Defined.

Lemma extract_some (txt : str) (toks : list str) (t : str) :
  tokenization txt toks -> In t toks -> mentions_host t ->
  exists url, extract_youtube_url txt = Some url.
Proof.
  intros Htok Hin Hhost. unfold extract_youtube_url.
  rewrite (tokenization_unique txt _ _ (split_strip_tokenization txt) Htok).
  destruct (find names_host toks) as [url | ] eqn:E; [exists url; reflexivity | ].
  apply names_host_spec in Hhost.
  rewrite (find_none names_host toks E t Hin) in Hhost. discriminate Hhost.
Qed.

(** When some token of the text names a host, the first call of the
    handler is the acknowledgment. *)
Theorem link_is_acknowledged_first
    (key : str) (W : world) (update : Update) (msg : Message)
    (txt : str) (toks : list str) (t : str) :
  message update = Some msg ->
  text msg = Some txt ->
  tokenization txt toks ->
  In t toks ->
  mentions_host t ->
  exists rest,
    snd (run (handle_message key W update)) = Reply (PStr ACK_TEXT) :: rest.
Proof.
  intros Hm Ht Htok Hin Hhost.
  destruct (extract_some txt toks t Htok Hin Hhost) as [url Hu].
  destruct (reply_fails W 0 (PStr ACK_TEXT)) eqn:Hack.
  - rewrite (ack_refused_run key W update msg txt url Hm Ht Hu Hack).
    exists []. reflexivity.
  - destruct (region_cases key W url [Reply (PStr ACK_TEXT)])
      as [r [evs [E _]]].
    rewrite (handle_message_after_ack key W update msg txt url r _
               Hm Ht Hu Hack E).
    eexists. simpl. reflexivity.
Qed.

Lemma link_is_acknowledged_first_witness :
  exists rest,
    snd (run (handle_message sample_key
                (world_answering (inl TimedOut) true) sample_update))
    = Reply (PStr ACK_TEXT) :: rest.
Proof.
  apply (link_is_acknowledged_first sample_key
           (world_answering (inl TimedOut) true) sample_update
           sample_message sample_text (split sample_text) sample_link).
  - reflexivity.
  - reflexivity.
  - apply split_tokenization.
  - vm_compute. right. right. right. left. reflexivity.
  - apply names_host_spec. reflexivity.
Defined.

(* ================================================================= *)
(** ** A string summary in any world *)

Lemma for_each_prefix {A : Type} (l : list A) (body : A -> M unit)
    (f : A -> event) :
  (forall x tr, exists r,
      body x tr = (r, tr ++ [f x])
      /\ (r = Returned tt \/ r = Raised Exn.TelegramError)) ->
  forall tr, exists k r,
    for_each l body tr = (r, tr ++ map f (firstn k l))
    /\ ((r = Returned tt /\ firstn k l = l) \/ r = Raised Exn.TelegramError).
Proof.
  intros Hbody. induction l as [|x l IH]; intros tr.
  - exists O, (Returned tt). simpl. rewrite app_nil_r. auto.
  - destruct (Hbody x tr) as [r [E Hr]]. simpl for_each. unfold bind.
    rewrite E. destruct Hr as [-> | ->].
    + destruct (IH (tr ++ [f x])) as [k [r' [E' Hr']]].
      exists (S k), r'. rewrite E'. simpl. rewrite <- app_assoc.
      split; [reflexivity | ].
      destruct Hr' as [[-> Hk] | ->]; [left | right; reflexivity].
      rewrite Hk. auto.
    + exists 1%nat, (Raised Exn.TelegramError). simpl.
      split; [reflexivity | right; reflexivity].
Qed.

Lemma reply_string_piece_cases (W : world) (s : str) (i : Z)
    (tr : list event) :
  exists r,
    (piece <- lift (py_slice (slice_is_hashable W) (PStr s)
                        i (i + max_len)) ;;
     reply_text W piece ;; ret tt) tr
    = (r, tr ++ [Reply (PStr (slice s i (i + max_len)))])
    /\ (r = Returned tt \/ r = Raised Exn.TelegramError).
Proof.
  unfold bind at 1. simpl lift. unfold ret at 1.
  rewrite reply_then_return_run. eexists. split; [reflexivity | ].
  destruct (reply_fails W _ _); auto.
Qed.

Lemma region_string_any_world
    (key : str) (W : world) (url s : str) (tr : list event) :
  client_outcome
    (post_result W (request_url key) (payload_of (prompt_for url)))
  = Returned (PStr s) ->
  exists k r,
    summarize_and_reply key W url tr
    = (r,
       tr ++ [Post (request_url key) (payload_of (prompt_for url))]
       ++ map (fun p => Reply (PStr p)) (firstn k (pieces s)))
    /\ ((r = Returned tt /\ firstn k (pieces s) = pieces s)
        \/ r = Raised Exn.TelegramError).
Proof.
  intros Hclient. unfold summarize_and_reply, try_except.
  unfold bind at 1. rewrite call_gemini_run, Hclient.
  unfold bind at 1.
  change (py_len (PStr s)) with (@inr exn Z (len s)).
  unfold lift at 1, ret at 1. unfold pieces.
  destruct (len s <=? max_len)%Z.
  - rewrite reply_then_return_run. exists 1%nat. simpl firstn. simpl map.
    rewrite <- app_assoc.
    destruct (reply_fails W _ _); eexists; (split; [reflexivity | auto]).
  - destruct (for_each_prefix (range 0 (len s) max_len)
                (fun i =>
                   piece <- lift (py_slice (slice_is_hashable W) (PStr s)
                        i (i + max_len)) ;;
                   reply_text W piece ;; ret tt)
                (fun i => Reply (PStr (slice s i (i + max_len))))
                (reply_string_piece_cases W s)
                (tr ++ [Post (request_url key) (payload_of (prompt_for url))]))
      as [k [r [E Hr]]].
    rewrite E. exists k, r. rewrite firstn_map, map_map, <- app_assoc.
    destruct Hr as [[-> Hk] | ->].
    + split; [reflexivity | ]. left. split; [reflexivity | ].
      rewrite Hk. reflexivity.
    + split; [reflexivity | ]. right. reflexivity.
Qed.

Lemma handle_message_string_any_world
    (key : str) (W : world) (update : Update) (msg : Message)
    (txt url s : str) :
  message update = Some msg ->
  text msg = Some txt ->
  extract_youtube_url txt = Some url ->
  reply_fails W 0 (PStr ACK_TEXT) = false ->
  fst (run (call_gemini key W url)) = Returned (PStr s) ->
  exists k r,
    run (handle_message key W update)
    = (r,
       [Reply (PStr ACK_TEXT);
        Post (request_url key) (payload_of (prompt_for url))]
       ++ map (fun p => Reply (PStr p)) (firstn k (pieces s))
       ++ [Delete 0])
    /\ ((r = Returned tt /\ firstn k (pieces s) = pieces s)
        \/ r = Raised Exn.TelegramError).
Proof.
  intros Hm Ht Hu Hack Hclient. rewrite client_outcome_of_run in Hclient.
  destruct (region_string_any_world key W url s [Reply (PStr ACK_TEXT)]
              Hclient) as [k [r [E Hr]]].
  exists k, r. split; [ | exact Hr].
  rewrite (handle_message_after_ack key W update msg txt url r _
             Hm Ht Hu Hack E).
  rewrite <- !app_assoc. reflexivity.
Qed.

Lemma Forall_firstn_of {A : Type} (P : A -> Prop) (k : nat) (l : list A) :
  Forall P l -> Forall P (firstn k l).
Proof.
  intros H. rewrite <- (firstn_skipn k l) in H.
  apply Forall_app in H. apply H.
Qed.

Lemma range_from_bounds (fuel : nat) (i n step j : Z) :
  (0 < step)%Z -> In j (range_from fuel i n step) -> (i <= j < n)%Z.
Proof.
  intros Hstep. revert i. induction fuel as [|fuel IH]; intros i Hin;
    [contradiction | ].
  simpl in Hin. destruct (i <? n)%Z eqn:Hlt; [ | contradiction].
  apply Z.ltb_lt in Hlt. destruct Hin as [<- | Hin]; [lia | ].
  specialize (IH _ Hin). lia.
Qed.

Lemma pieces_nonempty (s : str) :
  s <> [] -> Forall (fun p => p <> []) (pieces s).
Proof.
  intros Hs. unfold pieces. destruct (len s <=? max_len)%Z.
  - constructor; [exact Hs | constructor].
  - apply Forall_map, Forall_forall. intros i Hin.
    apply (range_from_bounds _ _ _ _ _ max_len_pos) in Hin.
    intros E. apply (f_equal (@List.length char)) in E.
    unfold slice in E. rewrite length_firstn, length_skipn in E.
    unfold len, max_len in *. simpl List.length in E. lia.
Qed.

(** Whatever replies the platform refuses, the pieces sent for a string
    summary, put end to end, are a beginning of the summary: no text is
    sent twice, out of order or altered. When the handler returns, they
    are the whole summary; otherwise it raises a [TelegramError]. *)
Theorem sent_text_begins_summary
    (key : str) (W : world) (update : Update) (msg : Message)
    (txt url s : str) :
  message update = Some msg ->
  text msg = Some txt ->
  extract_youtube_url txt = Some url ->
  reply_fails W 0 (PStr ACK_TEXT) = false ->
  fst (run (call_gemini key W url)) = Returned (PStr s) ->
  exists (r : result unit) (chunks : list str) (unsent : str),
    run (handle_message key W update)
    = (r,
       [Reply (PStr ACK_TEXT);
        Post (request_url key) (payload_of (prompt_for url))]
       ++ map (fun p => Reply (PStr p)) chunks ++ [Delete 0])
    /\ List.concat chunks ++ unsent = s
    /\ ((r = Returned tt /\ unsent = []) \/ r = Raised Exn.TelegramError).
Proof.
  intros Hm Ht Hu Hack Hclient.
  destruct (handle_message_string_any_world key W update msg txt url s
              Hm Ht Hu Hack Hclient) as [k [r [E Hr]]].
  exists r, (firstn k (pieces s)), (List.concat (skipn k (pieces s))).
  split; [exact E | ]. split.
  - rewrite <- concat_app, firstn_skipn. apply pieces_concat.
  - destruct Hr as [[-> Hk] | ->]; [left | right; reflexivity].
    split; [reflexivity | ].
    assert (Hskip : skipn k (pieces s) = []).
    { apply (app_inv_head (firstn k (pieces s))).
      rewrite firstn_skipn, app_nil_r. symmetry. exact Hk. }
    rewrite Hskip. reflexivity.
Qed.

Lemma sent_text_begins_summary_witness :
  exists (r : result unit) (chunks : list str) (unsent : str),
    run (handle_message sample_key
           (world_refusing
              (inr (response_with 200
                      (Some (body_with_text (PStr long_summary))))) 2)
           sample_update)
    = (r,
       [Reply (PStr ACK_TEXT);
        Post (request_url sample_key) (payload_of (prompt_for sample_link))]
       ++ map (fun p => Reply (PStr p)) chunks ++ [Delete 0])
    /\ List.concat chunks ++ unsent = long_summary
    /\ ((r = Returned tt /\ unsent = []) \/ r = Raised Exn.TelegramError).
Proof.
  apply (sent_text_begins_summary sample_key
           (world_refusing
              (inr (response_with 200
                      (Some (body_with_text (PStr long_summary))))) 2)
           sample_update sample_message sample_text sample_link
           long_summary).
  - reflexivity.
  - reflexivity.
  - vm_compute. reflexivity.
  - reflexivity.
  - vm_compute. reflexivity.
Defined.

(** Whatever replies the platform refuses, every piece sent for a summary
    that is a non-empty string is itself non-empty and at most 4000
    characters long. *)
Theorem sent_pieces_fit_one_message
    (key : str) (W : world) (update : Update) (msg : Message)
    (txt url s : str) :
  message update = Some msg ->
  text msg = Some txt ->
  extract_youtube_url txt = Some url ->
  reply_fails W 0 (PStr ACK_TEXT) = false ->
  fst (run (call_gemini key W url)) = Returned (PStr s) ->
  s <> [] ->
  exists (r : result unit) (chunks : list str),
    run (handle_message key W update)
    = (r,
       [Reply (PStr ACK_TEXT);
        Post (request_url key) (payload_of (prompt_for url))]
       ++ map (fun p => Reply (PStr p)) chunks ++ [Delete 0])
    /\ Forall (fun c => c <> [] /\ (len c <= 4000)%Z) chunks.
Proof.
  intros Hm Ht Hu Hack Hclient Hs.
  destruct (handle_message_string_any_world key W update msg txt url s
              Hm Ht Hu Hack Hclient) as [k [r [E _]]].
  exists r, (firstn k (pieces s)). split; [exact E | ].
  apply Forall_firstn_of. apply Forall_and.
  - apply pieces_nonempty. exact Hs.
  - apply pieces_len.
Qed.

Lemma sent_pieces_fit_one_message_witness :
  exists (r : result unit) (chunks : list str),
    run (handle_message sample_key
           (world_refusing
              (inr (response_with 200
                      (Some (body_with_text (PStr long_summary))))) 3)
           sample_update)
    = (r,
       [Reply (PStr ACK_TEXT);
        Post (request_url sample_key) (payload_of (prompt_for sample_link))]
       ++ map (fun p => Reply (PStr p)) chunks ++ [Delete 0])
    /\ Forall (fun c => c <> [] /\ (len c <= 4000)%Z) chunks.
Proof.
  apply (sent_pieces_fit_one_message sample_key
           (world_refusing
              (inr (response_with 200
                      (Some (body_with_text (PStr long_summary))))) 3)
           sample_update sample_message sample_text sample_link
           long_summary).
  - reflexivity.
  - reflexivity.
  - vm_compute. reflexivity.
  - reflexivity.
  - vm_compute. reflexivity.
  - discriminate.
Defined.

Lemma replies_so_far_reply (tr : list event) (v : pyval) :
  replies_so_far (tr ++ [Reply v]) = S (replies_so_far tr).
Proof.
  unfold replies_so_far. rewrite filter_app, length_app. simpl. lia.
Qed.

Lemma replies_so_far_post (tr : list event) (url : str) (payload : pyval) :
  replies_so_far (tr ++ [Post url payload]) = replies_so_far tr.
Proof.
  unfold replies_so_far. rewrite filter_app, length_app. simpl. lia.
Qed.

(** A loop of replies ends at the first one that is refused. *)
Lemma for_each_stops {A : Type} (W : world) (body : A -> M unit)
    (g : A -> pyval) :
  (forall x tr,
      body x tr
      = (if reply_fails W (replies_so_far tr) (g x)
         then Raised Exn.TelegramError else Returned tt,
         tr ++ [Reply (g x)])) ->
  forall (before : list A) (x : A) (after : list A) (tr : list event),
    (forall k y, nth_error before k = Some y ->
                 reply_fails W (replies_so_far tr + k) (g y) = false) ->
    reply_fails W (replies_so_far tr + List.length before) (g x) = true ->
    for_each (before ++ x :: after) body tr
    = (Raised Exn.TelegramError,
       tr ++ map (fun y => Reply (g y)) (before ++ [x])).
Proof.
  intros Hbody before. induction before as [|y before IH];
    intros x after tr Hok Hrefused.
  - simpl. unfold bind. rewrite Hbody.
    rewrite Nat.add_0_r in Hrefused. rewrite Hrefused. reflexivity.
  - simpl. unfold bind. rewrite Hbody.
    assert (Hy := Hok O y eq_refl). rewrite Nat.add_0_r in Hy. rewrite Hy.
    rewrite (IH x after (tr ++ [Reply (g y)])).
    + rewrite <- app_assoc. reflexivity.
    + intros k z Hk. rewrite replies_so_far_reply.
      replace (S (replies_so_far tr) + k)%nat
        with (replies_so_far tr + S k)%nat by lia.
      apply Hok. exact Hk.
    + rewrite replies_so_far_reply.
      replace (S (replies_so_far tr) + List.length before)%nat
        with (replies_so_far tr + List.length (y :: before))%nat
        by (simpl; lia).
      exact Hrefused.
Qed.

Lemma reply_string_piece_run (W : world) (s : str) (i : Z)
    (tr : list event) :
  (piece <- lift (py_slice (slice_is_hashable W) (PStr s)
                        i (i + max_len)) ;;
   reply_text W piece ;; ret tt) tr
  = (if reply_fails W (replies_so_far tr) (PStr (slice s i (i + max_len)))
     then Raised Exn.TelegramError else Returned tt,
     tr ++ [Reply (PStr (slice s i (i + max_len)))]).
Proof.
  unfold bind at 1. simpl lift. unfold ret at 1.
  apply reply_then_return_run.
Qed.

Lemma region_string_refused
    (key : str) (W : world) (url s : str) (tr : list event)
    (before : list str) (p : str) (after : list str) :
  client_outcome
    (post_result W (request_url key) (payload_of (prompt_for url)))
  = Returned (PStr s) ->
  pieces s = before ++ p :: after ->
  (forall k q, nth_error before k = Some q ->
               reply_fails W (replies_so_far tr + k) (PStr q) = false) ->
  reply_fails W (replies_so_far tr + List.length before) (PStr p) = true ->
  summarize_and_reply key W url tr
  = (Raised Exn.TelegramError,
     tr ++ [Post (request_url key) (payload_of (prompt_for url))]
     ++ map (fun q => Reply (PStr q)) (before ++ [p])).
Proof.
  intros Hclient Hpieces Hok Hrefused.
  unfold summarize_and_reply, try_except.
  unfold bind at 1. rewrite call_gemini_run, Hclient.
  unfold bind at 1.
  change (py_len (PStr s)) with (@inr exn Z (len s)).
  unfold lift at 1, ret at 1. unfold pieces in Hpieces.
  destruct (len s <=? max_len)%Z.
  - destruct before as [|q before].
    + simpl in Hpieces. injection Hpieces as <- _.
      rewrite reply_then_return_run, replies_so_far_post.
      simpl in Hrefused. rewrite Nat.add_0_r in Hrefused.
      rewrite Hrefused. simpl. rewrite <- app_assoc. reflexivity.
    + simpl in Hpieces. injection Hpieces as _ Hnil.
      exfalso. exact (app_cons_not_nil _ _ _ Hnil).
  - apply map_eq_app in Hpieces.
    destruct Hpieces as [ib [irest [Erange [Hb Hrest]]]].
    apply map_eq_cons in Hrest.
    destruct Hrest as [i [ia [-> [Hp _]]]].
    rewrite Erange.
    rewrite (for_each_stops W _
               (fun i => PStr (slice s i (i + max_len)))
               (reply_string_piece_run W s) ib i ia).
    + simpl. rewrite <- Hb, <- Hp, <- app_assoc.
      rewrite !map_app, map_map. reflexivity.
    + intros k j Hk. rewrite replies_so_far_post. apply Hok.
      rewrite <- Hb.
      exact (map_nth_error (fun i => slice s i (i + max_len)) k ib Hk).
    + rewrite replies_so_far_post, Hp.
      rewrite <- Hb, length_map in Hrefused. exact Hrefused.
Qed.

(** The first reply that the platform refuses ends the sending: the pieces
    before it and the refused one are the only ones passed to
    [reply_text], the later ones are not attempted, the acknowledgment is
    deleted and the [TelegramError] leaves the handler. *)
Theorem first_refused_piece_ends_sending
    (key : str) (W : world) (update : Update) (msg : Message)
    (txt url s : str) (before : list str) (p : str) (after : list str) :
  message update = Some msg ->
  text msg = Some txt ->
  extract_youtube_url txt = Some url ->
  reply_fails W 0 (PStr ACK_TEXT) = false ->
  fst (run (call_gemini key W url)) = Returned (PStr s) ->
  pieces s = before ++ p :: after ->
  (forall k q, nth_error before k = Some q ->
               reply_fails W (S k) (PStr q) = false) ->
  reply_fails W (S (List.length before)) (PStr p) = true ->
  run (handle_message key W update)
  = (Raised Exn.TelegramError,
     [Reply (PStr ACK_TEXT);
      Post (request_url key) (payload_of (prompt_for url))]
     ++ map (fun q => Reply (PStr q)) (before ++ [p]) ++ [Delete 0]).
Proof.
  intros Hm Ht Hu Hack Hclient Hpieces Hok Hrefused.
  rewrite client_outcome_of_run in Hclient.
  rewrite (handle_message_after_ack key W update msg txt url
             (Raised Exn.TelegramError)
             ([Reply (PStr ACK_TEXT)]
              ++ [Post (request_url key) (payload_of (prompt_for url))]
              ++ map (fun q => Reply (PStr q)) (before ++ [p]))
             Hm Ht Hu Hack).
  - rewrite <- !app_assoc. reflexivity.
  - apply (region_string_refused key W url s [Reply (PStr ACK_TEXT)]
             before p after Hclient Hpieces).
    + exact Hok.
    + exact Hrefused.
Qed.

Lemma first_refused_piece_ends_sending_witness :
  run (handle_message sample_key
         (world_refusing
            (inr (response_with 200
                    (Some (body_with_text (PStr long_summary))))) 2)
         sample_update)
  = (Raised Exn.TelegramError,
     [Reply (PStr ACK_TEXT);
      Post (request_url sample_key) (payload_of (prompt_for sample_link))]
     ++ map (fun q => Reply (PStr q))
          ([repeat 97%N 4000] ++ [repeat 97%N 4000]) ++ [Delete 0]).
Proof.
  apply (first_refused_piece_ends_sending sample_key
           (world_refusing
              (inr (response_with 200
                      (Some (body_with_text (PStr long_summary))))) 2)
           sample_update sample_message sample_text sample_link
           long_summary [repeat 97%N 4000] (repeat 97%N 4000)
           [repeat 97%N 500]).
  - reflexivity.
  - reflexivity.
  - vm_compute. reflexivity.
  - reflexivity.
  - vm_compute. reflexivity.
  - vm_compute. reflexivity.
  - intros [|[|k]] q Hk; [reflexivity | discriminate Hk | discriminate Hk].
  - reflexivity.
Defined.

(* ================================================================= *)
(** ** Summaries that are short, or not strings *)

Lemma region_short_string
    (key : str) (W : world) (url s : str) (tr : list event) :
  client_outcome
    (post_result W (request_url key) (payload_of (prompt_for url)))
  = Returned (PStr s) ->
  (len s <= max_len)%Z ->
  summarize_and_reply key W url tr
  = (if reply_fails W (replies_so_far tr) (PStr s)
     then Raised Exn.TelegramError else Returned tt,
     tr ++ [Post (request_url key) (payload_of (prompt_for url));
            Reply (PStr s)]).
Proof.
  intros Hclient Hlen. unfold summarize_and_reply, try_except.
  unfold bind at 1. rewrite call_gemini_run, Hclient.
  unfold bind at 1.
  change (py_len (PStr s)) with (@inr exn Z (len s)).
  unfold lift at 1, ret at 1.
  apply Z.leb_le in Hlen. rewrite Hlen.
  rewrite reply_then_return_run, replies_so_far_post, <- app_assoc.
  destruct (reply_fails W _ _); reflexivity.
Qed.

(** A body without the nested path is shown to the user: when the status
    is outside 400..599 and the two replies are accepted, the handler
    sends the fallback text as the one reply after the acknowledgment,
    deletes the acknowledgment and returns. *)
Theorem fallback_text_is_relayed
    (key : str) (W : world) (update : Update) (msg : Message)
    (txt url : str) (resp : Response) (data : pyval) :
  message update = Some msg ->
  text msg = Some txt ->
  extract_youtube_url txt = Some url ->
  post_result W (request_url key) (payload_of (prompt_for url)) = inr resp ->
  ~ (400 <= status_code resp < 600)%Z ->
  json_body resp = Some data ->
  ~ has_expected_shape data ->
  reply_fails W 0 (PStr ACK_TEXT) = false ->
  reply_fails W 1 (PStr FALLBACK_TEXT) = false ->
  run (handle_message key W update)
  = (Returned tt,
     [Reply (PStr ACK_TEXT);
      Post (request_url key) (payload_of (prompt_for url));
      Reply (PStr FALLBACK_TEXT); Delete 0]).
Proof.
  intros Hm Ht Hu Hpost Hstatus Hbody Hshape Hack Hreply.
  assert (Hclient :
            client_outcome
              (post_result W (request_url key) (payload_of (prompt_for url)))
            = Returned (PStr FALLBACK_TEXT)).
  { rewrite Hpost. unfold client_outcome.
    replace ((400 <=? status_code resp)%Z && (status_code resp <? 600)%Z)
      with false
      by (symmetry; apply andb_false_iff; rewrite Z.leb_gt, Z.ltb_ge; lia).
    rewrite Hbody.
    destruct (response_text data) as [e | v] eqn:E; [reflexivity | ].
    exfalso. apply Hshape. exists v. apply response_text_spec. exact E. }
  rewrite (handle_message_after_ack key W update msg txt url (Returned tt)
             ([Reply (PStr ACK_TEXT)]
              ++ [Post (request_url key) (payload_of (prompt_for url));
                  Reply (PStr FALLBACK_TEXT)])
             Hm Ht Hu Hack).
  - reflexivity.
  - rewrite (region_short_string key W url FALLBACK_TEXT _ Hclient)
      by (vm_compute; discriminate).
    change (replies_so_far [Reply (PStr ACK_TEXT)]) with 1%nat.
    rewrite Hreply. reflexivity.
Qed.

Lemma fallback_text_is_relayed_witness :
  run (handle_message sample_key
         (world_answering
            (inr (response_with 200
                    (Some (PDict [(lit "candidates", PList [])])))) false)
         sample_update)
  = (Returned tt,
     [Reply (PStr ACK_TEXT);
      Post (request_url sample_key) (payload_of (prompt_for sample_link));
      Reply (PStr FALLBACK_TEXT); Delete 0]).
Proof.
  apply (fallback_text_is_relayed sample_key
           (world_answering
              (inr (response_with 200
                      (Some (PDict [(lit "candidates", PList [])])))) false)
           sample_update sample_message sample_text sample_link
           (response_with 200 (Some (PDict [(lit "candidates", PList [])])))
           (PDict [(lit "candidates", PList [])])).
  - reflexivity.
  - reflexivity.
  - vm_compute. reflexivity.
  - reflexivity.
  - intros [H1 H2]. apply H1. reflexivity.
  - reflexivity.
  - intros [t [top [candidates [cand [content [parts [part [E [H _]]]]]]]]].
    injection E as <-. vm_compute in H. discriminate H.
  - reflexivity.
  - reflexivity.
Defined.

(** When the path leads to a value without a length ([None], a boolean
    or a number), [len(summary)] raises a [TypeError], which the [except]
    clause does not catch: no summary and no error text is sent, the
    acknowledgment is deleted and the [TypeError] leaves the handler. *)
Theorem unsized_summary_raises_type_error
    (key : str) (W : world) (update : Update) (msg : Message)
    (txt url : str) (v : pyval) (e : exn) :
  message update = Some msg ->
  text msg = Some txt ->
  extract_youtube_url txt = Some url ->
  reply_fails W 0 (PStr ACK_TEXT) = false ->
  fst (run (call_gemini key W url)) = Returned v ->
  py_len v = inl e ->
  run (handle_message key W update)
  = (Raised Exn.TypeError,
     [Reply (PStr ACK_TEXT);
      Post (request_url key) (payload_of (prompt_for url)); Delete 0]).
Proof.
  intros Hm Ht Hu Hack Hclient Hlen.
  rewrite client_outcome_of_run in Hclient.
  assert (He := py_len_error v e Hlen). subst e.
  rewrite (handle_message_after_ack key W update msg txt url
             (Raised Exn.TypeError)
             ([Reply (PStr ACK_TEXT)]
              ++ [Post (request_url key) (payload_of (prompt_for url))])
             Hm Ht Hu Hack).
  - reflexivity.
  - unfold summarize_and_reply, try_except.
    unfold bind at 1. rewrite call_gemini_run, Hclient.
    unfold bind at 1. rewrite Hlen. reflexivity.
Qed.

Lemma unsized_summary_raises_type_error_witness :
  run (handle_message sample_key
         (world_answering
            (inr (response_with 200 (Some (body_with_text PNone)))) false)
         sample_update)
  = (Raised Exn.TypeError,
     [Reply (PStr ACK_TEXT);
      Post (request_url sample_key) (payload_of (prompt_for sample_link));
      Delete 0]).
Proof.
  apply (unsized_summary_raises_type_error sample_key
           (world_answering
              (inr (response_with 200 (Some (body_with_text PNone)))) false)
           sample_update sample_message sample_text sample_link
           PNone Exn.TypeError).
  - reflexivity.
  - reflexivity.
  - vm_compute. reflexivity.
  - reflexivity.
  - vm_compute. reflexivity.
  - reflexivity.
Defined.

(* ================================================================= *)
(** ** More on the start of the process *)

(** The event loop is started exactly when the module is run as the main
    program and both variables are set to non-empty strings. In every
    other case nothing is built, registered, printed or started; loading
    the module without the credentials raises [SystemExit] even when it is
    not the main program. *)
Theorem event_loop_starts_exactly_when
    (getenv : str -> option str) (is_main : bool) :
  (In RunPolling (fst (module_body getenv is_main))
   <-> is_main = true
       /\ truthy (getenv (lit "TELEGRAM_BOT_TOKEN")) = true
       /\ truthy (getenv (lit "GEMINI_API_KEY")) = true)
  /\ (~ In RunPolling (fst (module_body getenv is_main)) ->
      fst (module_body getenv is_main) = [])
  /\ (snd (module_body getenv is_main) = SystemExit EXIT_TEXT
      <-> truthy (getenv (lit "TELEGRAM_BOT_TOKEN")) = false
          \/ truthy (getenv (lit "GEMINI_API_KEY")) = false).
Proof.
  unfold module_body.
  destruct (truthy (getenv (lit "TELEGRAM_BOT_TOKEN")));
    destruct (truthy (getenv (lit "GEMINI_API_KEY")));
    destruct is_main; simpl;
    repeat split; intros; auto;
    repeat match goal with
      | H : _ /\ _ |- _ => destruct H
      | H : _ \/ _ |- _ => destruct H
      end;
    try discriminate; try contradiction; try tauto.
Qed.

(* ================================================================= *)
(** ** A failed request, seen from the caller of the handler *)

Lemma region_request_exception_run
    (key : str) (W : world) (url : str) (e : exn) (tr : list event) :
  client_outcome
    (post_result W (request_url key) (payload_of (prompt_for url)))
  = Raised e ->
  Exn.issubclass e Exn.RequestException = true ->
  summarize_and_reply key W url tr
  = (if reply_fails W (replies_so_far tr) (PStr ERROR_TEXT)
     then Raised Exn.TelegramError else Returned tt,
     tr ++ [Post (request_url key) (payload_of (prompt_for url));
            Reply (PStr ERROR_TEXT)]).
Proof.
  intros Hclient Hsub. unfold summarize_and_reply, try_except.
  unfold bind at 1. rewrite call_gemini_run, Hclient, Hsub.
  rewrite reply_then_return_run, replies_so_far_post, <- app_assoc.
  reflexivity.
Qed.

(** A request that fails does not make the handler fail: when
    [call_gemini] raises a [RequestException] and the platform accepts the
    acknowledgment and the error text, the handler returns normally after
    deleting the acknowledgment, even if the deletion raises. *)
Theorem failed_request_leaves_handler_quiet
    (key : str) (W : world) (update : Update) (msg : Message)
    (txt url : str) (e : exn) :
  message update = Some msg ->
  text msg = Some txt ->
  extract_youtube_url txt = Some url ->
  fst (run (call_gemini key W url)) = Raised e ->
  Exn.issubclass e Exn.RequestException = true ->
  reply_fails W 0 (PStr ACK_TEXT) = false ->
  reply_fails W 1 (PStr ERROR_TEXT) = false ->
  run (handle_message key W update)
  = (Returned tt,
     [Reply (PStr ACK_TEXT);
      Post (request_url key) (payload_of (prompt_for url));
      Reply (PStr ERROR_TEXT); Delete 0]).
Proof.
  intros Hm Ht Hu Hclient Hsub Hack Hreply.
  rewrite client_outcome_of_run in Hclient.
  rewrite (handle_message_after_ack key W update msg txt url (Returned tt)
             ([Reply (PStr ACK_TEXT)]
              ++ [Post (request_url key) (payload_of (prompt_for url));
                  Reply (PStr ERROR_TEXT)])
             Hm Ht Hu Hack).
  - reflexivity.
  - rewrite (region_request_exception_run key W url e _ Hclient Hsub).
    change (replies_so_far [Reply (PStr ACK_TEXT)]) with 1%nat.
    rewrite Hreply. reflexivity.
Qed.

Lemma failed_request_leaves_handler_quiet_witness :
  run (handle_message sample_key
         (world_answering (inr (response_with 500 None)) true)
         sample_update)
  = (Returned tt,
     [Reply (PStr ACK_TEXT);
      Post (request_url sample_key) (payload_of (prompt_for sample_link));
      Reply (PStr ERROR_TEXT); Delete 0]).
Proof.
  apply (failed_request_leaves_handler_quiet sample_key
           (world_answering (inr (response_with 500 None)) true)
           sample_update sample_message sample_text sample_link
           Exn.HTTPError).
  - reflexivity.
  - reflexivity.
  - vm_compute. reflexivity.
  - vm_compute. reflexivity.
  - reflexivity.
  - reflexivity.
  - reflexivity.
Defined.

(* ================================================================= *)
(** ** Runs in which [response.json()] fails *)

(** A body nested too deep: the [RecursionError] leaves the handler, which
    has sent no error text and has deleted the acknowledgment. *)
Example run_nested_too_deep :
  run (handle_message sample_key
         (world_answering (inr (response_failing 200 NestedTooDeep)) false)
         sample_update)
  = (Raised Exn.RecursionError,
     [Reply (PStr ACK_TEXT);
      Post (request_url sample_key) (payload_of (prompt_for sample_link));
      Delete 0]).
Proof. vm_compute. reflexivity. Qed.

(** An integer too long to convert: the same with a [ValueError]. *)
Example run_integer_too_long :
  run (handle_message sample_key
         (world_answering (inr (response_failing 200 IntegerTooLong)) false)
         sample_update)
  = (Raised Exn.ValueError,
     [Reply (PStr ACK_TEXT);
      Post (request_url sample_key) (payload_of (prompt_for sample_link));
      Delete 0]).
Proof. vm_compute. reflexivity. Qed.

(** A body that is not JSON text, under a requests that wraps the error:
    the error text is sent. *)
Example run_not_json_wrapped :
  run (handle_message sample_key
         (world_answering (inr (response_failing 200 NotJSON_wrapped)) false)
         sample_update)
  = (Returned tt,
     [Reply (PStr ACK_TEXT);
      Post (request_url sample_key) (payload_of (prompt_for sample_link));
      Reply (PStr ERROR_TEXT);
      Delete 0]).
Proof. vm_compute. reflexivity. Qed.

(** The same body under a requests that does not wrap the error. *)
Example run_not_json_plain :
  run (handle_message sample_key
         (world_answering (inr (response_failing 200 NotJSON_plain)) false)
         sample_update)
  = (Raised Exn.json_JSONDecodeError,
     [Reply (PStr ACK_TEXT);
      Post (request_url sample_key) (payload_of (prompt_for sample_link));
      Delete 0]).
Proof. vm_compute. reflexivity. Qed.

(** Slicing a dict on the two kinds of interpreter. *)
Example slice_of_dict :
  py_slice false (PDict []) 0 4000 = inl Exn.TypeError
  /\ py_slice true (PDict []) 0 4000 = inl Exn.KeyError.
Proof. split; reflexivity. Qed.
